(** * Session and device binding of the LMS backend

    A shallow embedding of the student session / device-binding code:
    [AuthService] (login, generateTokens, refreshAccessToken,
    checkDeviceLimit), the [authenticate] and [validateDevice]
    middlewares and [DeviceService.resetStudentDevices], over an explicit
    model of the tables they touch through the Supabase client.

    Source files: [services/auth.service.js] (AuthService),
    [middlewares/auth.middleware.js] (authenticate),
    [middlewares/validateDevice.middleware.js] (validateDevice),
    [services/device.service.js] (DeviceService),
    [services/audit.service.js] (AuditService) and
    [middlewares/error.middleware.js] (AppError).

    Conventions of the model.
    - Every function of the source that awaits the store is a computation
      in the monad [M]: it takes the database and returns a result
      together with the database it leaves behind.  A thrown JavaScript
      exception is the result [Throw]; the writes made before the throw
      stay (the source runs no transaction).
    - Every awaited store call of the source is a [Site].  The
      environment of one invocation tells, per site, whether the call
      answers normally, answers with an [{ error }] object, or rejects
      (the awaited promise throws).
    - Time is a number of seconds; [new Date()] reads [now] of the
      environment.
    - A JSON web token is the record of what was signed, with the key it
      was signed with: verification succeeds exactly for the right key
      before the expiry time. *)

From Stdlib Require Import String Ascii List ZArith Bool Lia DecimalString.
Import ListNotations.
Local Open Scope string_scope.
Local Open Scope Z_scope.

Set Implicit Arguments.

(** ** JavaScript values used by the code *)

Module Js.

(** [if (s)] on a value that is a string, [null] or [undefined]. *)
Definition truthy (v : option string) : bool :=
  match v with
  | Some s => negb (String.eqb s "")
  | None => false
  end.

(** [a === b] on two such values. *)
Definition strict_eq (a b : option string) : bool :=
  match a, b with
  | Some x, Some y => String.eqb x y
  | None, None => true
  | _, _ => false
  end.

Definition is_space (c : ascii) : bool :=
  let n := nat_of_ascii c in
  (Nat.eqb n 32 || (Nat.leb 9 n && Nat.leb n 13))%bool.

Fixpoint skip_spaces (s : string) : string :=
  match s with
  | String c r => if is_space c then skip_spaces r else s
  | EmptyString => s
  end.

(** The value of one digit in the given radix, if it is one. *)
Definition digit (radix : Z) (c : ascii) : option Z :=
  let n := Z.of_nat (nat_of_ascii c) in
  let v :=
    if (48 <=? n) && (n <=? 57) then Some (n - 48)
    else if (97 <=? n) && (n <=? 102) then Some (n - 87)
    else if (65 <=? n) && (n <=? 70) then Some (n - 55)
    else None in
  match v with
  | Some d => if d <? radix then Some d else None
  | None => None
  end.

(** Longest prefix of digits, read from the left; [None] when the
    prefix is empty. *)
Fixpoint digits (radix : Z) (acc : option Z) (s : string) : option Z :=
  match s with
  | String c r =>
      match digit radix c with
      | Some d =>
          digits radix (Some (match acc with Some a => a * radix + d | None => d end)) r
      | None => acc
      end
  | EmptyString => acc
  end.

Definition strip_hex (s : string) : option string :=
  match s with
  | String "0" (String "x" r) => Some r
  | String "0" (String "X" r) => Some r
  | _ => None
  end.

Definition unsigned (s : string) : option Z :=
  match strip_hex s with
  | Some r => digits 16 None r
  | None => digits 10 None s
  end.

(** [parseInt(s)] without a radix; [None] is [NaN]. *)
Definition parseInt (s : string) : option Z :=
  match skip_spaces s with
  | String "-" r => option_map Z.opp (unsigned r)
  | String "+" r => unsigned r
  | t => unsigned t
  end.

(** [`${n}`] for an integer. *)
Definition toString (n : Z) : string :=
  NilZero.string_of_int (Z.to_int n).

End Js.

(** ** Errors *)

(** [new AppError(message, statusCode)], with the [code] some callers
    set afterwards. *)
Record AppError := mkAppError {
  message : string;
  statusCode : Z;
  code : option string
}.

(** What a [throw] carries: an [AppError], one of the two errors of
    [jwt.verify], or anything else (named by its [error.name]). *)
Inductive Exn :=
| App (e : AppError)
| JsonWebTokenError
| TokenExpiredError
| Other (name : string).

Module Errors.
Definition InvalidCredentials :=
  mkAppError "Invalid email or password" 401 None.
Definition AccountBlocked :=
  mkAppError "Your account has been blocked. Please contact admin." 403 None.
Definition DeviceBlocked :=
  mkAppError "This device has been blocked by admin. Please contact support." 403 None.
Definition DeviceLimitExceeded (maxDevices : Z) :=
  mkAppError
    ("Device limit reached. You can only access from " ++ Js.toString maxDevices
     ++ " device(s). Please contact admin to reset your device.") 403 None.
Definition SessionExpired :=
  mkAppError "Session expired. Please login again." 401 None.
Definition RefreshTokenExpired :=
  mkAppError "Refresh token expired. Please login again." 401 None.
Definition InvalidRefreshToken :=
  mkAppError "Invalid or expired refresh token. Please login again." 401 None.
Definition NoTokenProvided :=
  mkAppError "No token provided. Please login." 401 None.
Definition UserNotFoundOrTokenInvalid :=
  mkAppError "User not found or token invalid" 401 None.
Definition SessionExpiredElsewhere :=
  mkAppError "Session expired on another device. Please login again." 401 None.
Definition InvalidToken :=
  mkAppError "Invalid token. Please login again." 401 None.
Definition TokenExpired :=
  mkAppError "Token expired. Please login again." 401 None.
Definition DeviceSessionInvalid :=
  mkAppError "Session invalidated due to device reset or device change" 403
    (Some "DEVICE_SESSION_INVALID").
Definition UserNotFound :=
  mkAppError "User not found" 404 None.
Definition StudentsOnly :=
  mkAppError "This action can only be performed on student accounts" 403 None.
Definition ResetFailed :=
  mkAppError "Failed to reset student devices" 500 None.
End Errors.

(** ** JSON web tokens *)

Inductive Key := jwtSecret | jwtRefreshSecret | foreignKey.

Definition key_eqb (a b : Key) : bool :=
  match a, b with
  | jwtSecret, jwtSecret | jwtRefreshSecret, jwtRefreshSecret
  | foreignKey, foreignKey => true
  | _, _ => false
  end.

(** The claims the code puts in a token. *)
Record Payload := mkPayload {
  userId : string;
  role : string;
  deviceId : option string;
  tokenId : option string
}.

Record Jwt := mkJwt {
  payload : Payload;
  signed_with : Key;
  iat : Z;
  exp : Z
}.

Definition jwtExpiresIn : Z := 15 * 60.
Definition jwtRefreshExpiresIn : Z := 7 * 24 * 60 * 60.

(** [jwt.sign(payload, key, { expiresIn })] at time [t]. *)
Definition jwt_sign (p : Payload) (k : Key) (expiresIn t : Z) : Jwt :=
  mkJwt p k t (t + expiresIn).

(** [jwt.verify(token, key)] at time [t]: the signature first, then the
    expiry. *)
Definition jwt_verify (tok : Jwt) (k : Key) (t : Z) : Payload + Exn :=
  if negb (key_eqb (signed_with tok) k) then inr JsonWebTokenError
  else if exp tok <=? t then inr TokenExpiredError
  else inl (payload tok).

Definition payload_eqb (a b : Payload) : bool :=
  (userId a =? userId b)%string && (role a =? role b)%string
  && Js.strict_eq (deviceId a) (deviceId b)
  && Js.strict_eq (tokenId a) (tokenId b).

(** Equality of two tokens as the strings the store compares. *)
Definition jwt_eqb (a b : Jwt) : bool :=
  payload_eqb (payload a) (payload b) && key_eqb (signed_with a) (signed_with b)
  && (iat a =? iat b) && (exp a =? exp b).

(** ** Tables *)

Module Users.
Record row := mk {
  id : string;
  email : string;
  password_hash : string;
  role : string;
  status : string
}.
Definition set_status (v : string) (r : row) : row :=
  mk (id r) (email r) (password_hash r) (role r) v.
End Users.

Module RefreshTokens.
Record row := mk {
  user_id : string;
  token : Jwt;
  device_id : option string;
  expires_at : Z;
  revoked : bool
}.
Definition set_revoked (v : bool) (r : row) : row :=
  mk (user_id r) (token r) (device_id r) (expires_at r) v.
End RefreshTokens.

Module UserDevices.
Record row := mk {
  user_id : string;
  device_id : string;
  is_blocked : bool;
  login_count : option Z;
  device_changes_count : option Z;
  last_login_at : option Z;
  last_active : option Z
}.
Definition set_login (count t : Z) (r : row) : row :=
  mk (user_id r) (device_id r) (is_blocked r) (Some count)
     (device_changes_count r) (Some t) (Some t).
Definition set_device_changes_count (n : Z) (r : row) : row :=
  mk (user_id r) (device_id r) (is_blocked r) (login_count r)
     (Some n) (last_login_at r) (last_active r).
End UserDevices.

Module SystemSettings.
Record row := mk {
  setting_key : string;
  setting_value : string
}.
End SystemSettings.

Module AuditLogs.
Record row := mk {
  user_id : string;
  action : string;
  description : string
}.
End AuditLogs.

Record Db := mkDb {
  users : list Users.row;
  refresh_tokens : list RefreshTokens.row;
  user_devices : list UserDevices.row;
  system_settings : list SystemSettings.row;
  audit_logs : list AuditLogs.row
}.

Definition with_users (f : list Users.row -> list Users.row) (db : Db) : Db :=
  mkDb (f (users db)) (refresh_tokens db) (user_devices db) (system_settings db)
       (audit_logs db).
Definition with_refresh_tokens
  (f : list RefreshTokens.row -> list RefreshTokens.row) (db : Db) : Db :=
  mkDb (users db) (f (refresh_tokens db)) (user_devices db) (system_settings db)
       (audit_logs db).
Definition with_user_devices
  (f : list UserDevices.row -> list UserDevices.row) (db : Db) : Db :=
  mkDb (users db) (refresh_tokens db) (f (user_devices db)) (system_settings db)
       (audit_logs db).
Definition with_audit_logs (f : list AuditLogs.row -> list AuditLogs.row) (db : Db) : Db :=
  mkDb (users db) (refresh_tokens db) (user_devices db) (system_settings db)
       (f (audit_logs db)).

(** ** Computations over the store *)

Inductive Result (A : Type) :=
| Ok (a : A)
| Throw (e : Exn).
Arguments Throw {A} e.

Definition M (A : Type) : Type := Db -> Result A * Db.

Definition ret {A} (a : A) : M A := fun db => (Ok a, db).

Definition throw {A} (e : Exn) : M A := fun db => (Throw e, db).

Definition bind {A B} (c : M A) (k : A -> M B) : M B :=
  fun db =>
    match c db with
    | (Ok a, db') => k a db'
    | (Throw e, db') => (Throw e, db')
    end.

(** [try { c } catch (error) { h error }]. *)
Definition try_catch {A} (c : M A) (h : Exn -> M A) : M A :=
  fun db =>
    match c db with
    | (Ok a, db') => (Ok a, db')
    | (Throw e, db') => h e db'
    end.

Declare Scope js_scope.
Delimit Scope js_scope with js.
Notation "x <- c ;; k" := (bind c (fun x => k))
  (at level 61, c at next level, right associativity) : js_scope.
Notation "c ;;; k" := (bind c (fun _ => k))
  (at level 61, right associativity) : js_scope.
Local Open Scope js_scope.

(** ** The Supabase client *)

Module Supabase.

(** The [{ data, error }] object a query resolves to. *)
Record Reply (A : Type) := mkReply {
  data : option A;
  error : option string
}.

Definition ok {A} (a : A) : Reply A := mkReply (Some a) None.
Definition failed {A} (why : string) : Reply A := mkReply None (Some why).

(** How one awaited call ends: normally, with an [{ error }] object
    and no effect, or with a rejected promise. *)
Inductive Outcome := Succeeds | ReturnsError | Rejects.

Definition Query (A : Type) : Type := Db -> Reply A * Db.

Definition await {A} (o : Outcome) (q : Query A) : M (Reply A) :=
  fun db =>
    match o with
    | Succeeds => let (r, db') := q db in (Ok r, db')
    | ReturnsError => (Ok (failed "store error"), db)
    | Rejects => (Throw (Other "FetchError"), db)
    end.

(** [.from(t).select(..).eq(..)]: the rows that pass the filters. *)
Definition select {R} (t : Db -> list R) (p : R -> bool) : Db -> list R :=
  fun db => filter p (t db).

(** A select awaited as it is. *)
Definition rows {R} (s : Db -> list R) : Query (list R) :=
  fun db => (ok (s db), db).

(** [.limit(n)]. *)
Definition limit {R} (n : nat) (s : Db -> list R) : Db -> list R :=
  fun db => firstn n (s db).

(** [.single()]: the row when exactly one is selected, an error
    otherwise. *)
Definition single {R} (s : Db -> list R) : Query R :=
  fun db =>
    match s db with
    | [r] => (ok r, db)
    | _ => (failed "PGRST116", db)
    end.

(** [.from(t).delete().eq(..)]. *)
Definition delete {R} (w : (list R -> list R) -> Db -> Db) (p : R -> bool)
  : Query unit :=
  fun db => (ok tt, w (filter (fun r => negb (p r))) db).

(** [.from(t).update(..).eq(..)]. *)
Definition update {R} (w : (list R -> list R) -> Db -> Db) (f : R -> R)
  (p : R -> bool) : Query unit :=
  fun db => (ok tt, w (map (fun r => if p r then f r else r)) db).

(** [.from(t).insert(row)]. *)
Definition insert {R} (w : (list R -> list R) -> Db -> Db) (r : R) : Query unit :=
  fun db => (ok tt, w (fun l => (l ++ [r])%list) db).

End Supabase.

Import Supabase.

(** The awaited store calls of the modelled functions, in source
    order. *)
Inductive Site :=
(* AuthService.login *)
| login_users | login_revoke
(* AuthService.generateTokens *)
| generateTokens_insert
(* AuthService.refreshAccessToken *)
| refresh_token_record
(* AuthService.checkDeviceLimit *)
| cdl_enforcement | cdl_max_devices | cdl_devices
| cdl_login_count | cdl_update_login | cdl_changes_count | cdl_update_changes
(* authenticate *)
| authenticate_users | authenticate_valid_tokens
(* validateDevice *)
| validate_enforcement | validate_revoke
(* DeviceService.resetStudentDevices *)
| reset_users | reset_devices | reset_tokens | reset_status
(* AuditService.log *)
| audit_insert.

Definition site_eq_dec (a b : Site) : {a = b} + {a <> b}.
Proof. decide equality. Defined.

(** What one invocation gets from outside the store: how each awaited
    call ends, the clock, the identifier [uuidv4()] returns and the
    password comparison of bcrypt. *)
Record Env := mkEnv {
  outcome : Site -> Outcome;
  now : Z;
  uuidv4 : string;
  bcrypt_compare : string -> string -> bool
}.

Definition seven_days : Z := 7 * 24 * 60 * 60.

(** ** AuthService *)

Module AuthService.

Record Tokens := mkTokens {
  accessToken : Jwt;
  refreshToken : Jwt
}.

(** What [login] returns: the row read from [users] (the source drops
    its [password_hash] from the response) and the two tokens. *)
Record LoginResult := mkLoginResult {
  user : Users.row;
  tokens : Tokens
}.

(** [enforcementSetting?.setting_value === 'true']. *)
Definition enforcement_enabled (r : Reply SystemSettings.row) : bool :=
  match data r with
  | Some s => String.eqb (SystemSettings.setting_value s) "true"
  | None => false
  end.

Definition setting (key : string) : Db -> list SystemSettings.row :=
  select system_settings (fun s => String.eqb (SystemSettings.setting_key s) key).

Definition devices_of (userId : string) : Db -> list UserDevices.row :=
  select user_devices (fun d => String.eqb (UserDevices.user_id d) userId).

Definition this_device (userId currentDeviceId : string) (d : UserDevices.row) : bool :=
  String.eqb (UserDevices.user_id d) userId
  && String.eqb (UserDevices.device_id d) currentDeviceId.

(** [n || 0] on a nullable count. *)
Definition or_zero (n : option Z) : Z :=
  match n with
  | Some v => v
  | None => 0
  end.

(** [length >= maxDevices], keeping the limit that was reached;
    [maxDevices] is [None] when [parseInt] gave [NaN], and then the
    comparison is false. *)
Definition reached (length : nat) (maxDevices : option Z) : option Z :=
  match maxDevices with
  | Some n => if n <=? Z.of_nat length then Some n else None
  | None => None
  end.

(** [checkDeviceLimit(userId, currentDeviceId)], auth.service.js lines
    220-305. *)
Definition checkDeviceLimit (env : Env) (userId currentDeviceId : string) : M unit :=
  enforcementSetting <-
    await (outcome env cdl_enforcement) (single (setting "device_tracking_enabled")) ;;
  if negb (enforcement_enabled enforcementSetting) then ret tt
  else
    settingData <-
      await (outcome env cdl_max_devices) (single (setting "max_devices_per_student")) ;;
    let maxDevices :=
      match data settingData with
      | Some s => Js.parseInt (SystemSettings.setting_value s)
      | None => Some 1
      end in
    reply <- await (outcome env cdl_devices) (rows (devices_of userId)) ;;
    match data reply with
    | None => ret tt
    | Some devices =>
        match
          find (fun d => String.eqb (UserDevices.device_id d) currentDeviceId
                         && UserDevices.is_blocked d) devices
        with
        | Some _ => throw (App Errors.DeviceBlocked)
        | None =>
            let isDeviceRegistered :=
              existsb (fun d => String.eqb (UserDevices.device_id d) currentDeviceId)
                      devices in
            match
              (if negb isDeviceRegistered then reached (length devices) maxDevices
               else None)
            with
            | Some n => throw (App (Errors.DeviceLimitExceeded n))
            | None =>
            if isDeviceRegistered then
              currentDevice <-
                await (outcome env cdl_login_count)
                      (single (select user_devices (this_device userId currentDeviceId))) ;;
              let count := or_zero (match data currentDevice with
                                    | Some d => UserDevices.login_count d
                                    | None => None
                                    end) in
              await (outcome env cdl_update_login)
                    (update with_user_devices
                       (UserDevices.set_login (count + 1) (now env))
                       (this_device userId currentDeviceId)) ;;;
              ret tt
            else if 0 <? Z.of_nat (length devices) then
              userDevices <-
                await (outcome env cdl_changes_count)
                      (single (limit 1 (devices_of userId))) ;;
              let changes := or_zero (match data userDevices with
                                      | Some d => UserDevices.device_changes_count d
                                      | None => None
                                      end) in
              await (outcome env cdl_update_changes)
                    (update with_user_devices
                       (UserDevices.set_device_changes_count (changes + 1))
                       (fun d => String.eqb (UserDevices.user_id d) userId)) ;;;
              ret tt
            else ret tt
            end
        end
    end.

(** [generateTokens(userId, role, deviceId = null)], auth.service.js
    lines 119-156.  The row is stored with the column default
    [revoked = false]. *)
Definition generateTokens (env : Env) (userId role : string)
  (deviceId : option string) : M Tokens :=
  let bound :=
    if String.eqb role "student" && Js.truthy deviceId then deviceId else None in
  let tokenPayload := mkPayload userId role bound None in
  let accessToken := jwt_sign tokenPayload jwtSecret jwtExpiresIn (now env) in
  let refreshTokenPayload := mkPayload userId role bound (Some (uuidv4 env)) in
  let refreshToken :=
    jwt_sign refreshTokenPayload jwtRefreshSecret jwtRefreshExpiresIn (now env) in
  await (outcome env generateTokens_insert)
        (insert with_refresh_tokens
           (RefreshTokens.mk userId refreshToken deviceId
              (now env + seven_days) false)) ;;;
  ret (mkTokens accessToken refreshToken).

(** [login(email, password, deviceId)], auth.service.js lines 59-116. *)
Definition login (env : Env) (email password : string) (deviceId : option string)
  : M LoginResult :=
  found <-
    await (outcome env login_users)
          (single (select users (fun u => String.eqb (Users.email u) email))) ;;
  match error found, data found with
  | None, Some user =>
      if String.eqb (Users.status user) "blocked"
      then throw (App Errors.AccountBlocked)
      else if negb (bcrypt_compare env password (Users.password_hash user))
      then throw (App Errors.InvalidCredentials)
      else
        match deviceId with
        | Some d =>
            if String.eqb (Users.role user) "student" && Js.truthy deviceId
            then checkDeviceLimit env (Users.id user) d
            else ret tt
        | None => ret tt
        end ;;;
        (if String.eqb (Users.role user) "student"
         then
           await (outcome env login_revoke)
                 (delete with_refresh_tokens
                    (fun t => String.eqb (RefreshTokens.user_id t) (Users.id user))) ;;;
           ret tt
         else ret tt) ;;;
        issued <- generateTokens env (Users.id user) (Users.role user) deviceId ;;
        ret (mkLoginResult user issued)
  | _, _ => throw (App Errors.InvalidCredentials)
  end.

(** [refreshAccessToken(refreshToken)], auth.service.js lines
    159-202. *)
Definition refreshAccessToken (env : Env) (refreshToken : Jwt) : M Jwt :=
  try_catch
    (match jwt_verify refreshToken jwtRefreshSecret (now env) with
     | inr e => throw e
     | inl decoded =>
         found <-
           await (outcome env refresh_token_record)
                 (single (select refresh_tokens
                            (fun t => jwt_eqb (RefreshTokens.token t) refreshToken
                                      && Bool.eqb (RefreshTokens.revoked t) false))) ;;
         match error found, data found with
         | None, Some tokenRecord =>
             if RefreshTokens.expires_at tokenRecord <? now env
             then throw (App Errors.RefreshTokenExpired)
             else
               let tokenPayload :=
                 mkPayload (userId decoded) (role decoded)
                   (if String.eqb (role decoded) "student"
                       && Js.truthy (deviceId decoded)
                    then deviceId decoded else None)
                   None in
               ret (jwt_sign tokenPayload jwtSecret jwtExpiresIn (now env))
         | _, _ => throw (App Errors.SessionExpired)
         end
     end)
    (fun error =>
       match error with
       | JsonWebTokenError | TokenExpiredError =>
           throw (App Errors.InvalidRefreshToken)
       | _ => throw error
       end).

End AuthService.

(** ** Middlewares *)

Module Middleware.

(** [req.user] as [authenticate] builds it: the row read from [users]
    overlaid with the claims of the token. *)
Module ReqUser.
Record t := mk {
  id : string;
  status : string;
  userId : string;
  role : string;
  deviceId : option string
}.
End ReqUser.

(** The parts of the request the two middlewares read: the bearer
    token of the [Authorization] header ([None] when the header is
    missing or not a bearer one), the [X-Device-ID] header, and
    [req.user]. *)
Record Req := mkReq {
  bearer : option Jwt;
  x_device_id : option string;
  user : option ReqUser.t
}.

(** How a middleware hands over: [next()] or [next(error)]. *)
Inductive Next :=
| next
| next_error (e : Exn).

(** [.eq('revoked', false).gt('expires_at', now)]. *)
Definition live (t : Z) (r : RefreshTokens.row) : bool :=
  Bool.eqb (RefreshTokens.revoked r) false && (t <? RefreshTokens.expires_at r).

(** The [try] block of [authenticate], auth.middleware.js lines 8-63. *)
Definition authenticate_try (env : Env) (req : Req) : M ReqUser.t :=
  match bearer req with
  | None => throw (App Errors.NoTokenProvided)
  | Some token =>
      match jwt_verify token jwtSecret (now env) with
      | inr e => throw e
      | inl decoded =>
          found <-
            await (outcome env authenticate_users)
                  (single (select users
                             (fun u => String.eqb (Users.id u) (userId decoded)))) ;;
          match error found, data found with
          | None, Some u =>
              if String.eqb (Users.status u) "blocked"
              then throw (App Errors.AccountBlocked)
              else
                (if String.eqb (Users.role u) "student"
                 then
                   validTokens <-
                     await (outcome env authenticate_valid_tokens)
                           (rows (limit 1
                                    (select refresh_tokens
                                       (fun t =>
                                          String.eqb (RefreshTokens.user_id t) (Users.id u)
                                          && live (now env) t)))) ;;
                   match error validTokens, data validTokens with
                   | None, Some (_ :: _) => ret tt
                   | _, _ => throw (App Errors.SessionExpiredElsewhere)
                   end
                 else ret tt) ;;;
                ret (ReqUser.mk (Users.id u) (Users.status u) (userId decoded)
                               (role decoded) (deviceId decoded))
          | _, _ => throw (App Errors.UserNotFoundOrTokenInvalid)
          end
      end
  end.

(** [authenticate(req, res, next)] with its [catch] block (lines
    64-72): the request it leaves and the way it hands over. *)
Definition authenticate (env : Env) (req : Req) : Db -> (Req * Next) * Db :=
  fun db =>
    match authenticate_try env req db with
    | (Ok u, db') => ((mkReq (bearer req) (x_device_id req) (Some u), next), db')
    | (Throw JsonWebTokenError, db') => ((req, next_error (App Errors.InvalidToken)), db')
    | (Throw TokenExpiredError, db') => ((req, next_error (App Errors.TokenExpired)), db')
    | (Throw e, db') => ((req, next_error e), db')
    end.

(** The [try] block of [validateDevice], validateDevice.middleware.js
    lines 10-75.  The dynamic import of the client is taken to
    succeed. *)
Definition validateDevice_try (env : Env) (req : Req) : M Next :=
  match user req with
  | None => ret next
  | Some u =>
      if String.eqb (ReqUser.role u) "admin" || String.eqb (ReqUser.role u) "teacher"
      then ret next
      else if String.eqb (ReqUser.role u) "student" then
        enforcementSetting <-
          await (outcome env validate_enforcement)
                (single (AuthService.setting "device_tracking_enabled")) ;;
        if negb (AuthService.enforcement_enabled enforcementSetting) then ret next
        else
          let tokenDeviceId := ReqUser.deviceId u in
          let requestDeviceId := x_device_id req in
          if negb (Js.truthy tokenDeviceId) then ret next
          else if Js.truthy tokenDeviceId && negb (Js.truthy requestDeviceId)
          then ret (next_error (App Errors.DeviceSessionInvalid))
          else if Js.truthy tokenDeviceId && Js.truthy requestDeviceId
                  && negb (Js.strict_eq tokenDeviceId requestDeviceId)
          then
            await (outcome env validate_revoke)
                  (update with_refresh_tokens (RefreshTokens.set_revoked true)
                     (fun t => String.eqb (RefreshTokens.user_id t) (ReqUser.userId u))) ;;;
            ret (next_error (App Errors.DeviceSessionInvalid))
          else ret next
      else ret next
  end.

(** [validateDevice(req, res, next)] with its [catch] block (lines
    76-81): whatever is thrown inside is logged and the request goes
    on. *)
Definition validateDevice (env : Env) (req : Req) : Db -> Next * Db :=
  fun db =>
    match validateDevice_try env req db with
    | (Ok n, db') => (n, db')
    | (Throw _, db') => (next, db')
    end.

End Middleware.

(** ** AuditService and DeviceService *)

Module AuditService.

(** [log(userId, action, description)], audit.service.js lines 6-27:
    never throws. *)
Definition log (env : Env) (userId action description : string) : M unit :=
  try_catch
    (await (outcome env audit_insert)
           (insert with_audit_logs (AuditLogs.mk userId action description)) ;;;
     ret tt)
    (fun _ => ret tt).

End AuditService.

Module DeviceService.

Record Done := mkDone {
  success : bool;
  message : string
}.

Definition reset_done : Done :=
  mkDone true
    "Student devices reset successfully. Student can now login from a new device. All course data and progress preserved.".

(** [resetStudentDevices(userId, adminId)], device.service.js lines
    126-199. *)
Definition resetStudentDevices (env : Env) (userId adminId : string) : M Done :=
  found <-
    await (outcome env reset_users)
          (single (select users (fun u => String.eqb (Users.id u) userId))) ;;
  match data found with
  | None => throw (App Errors.UserNotFound)
  | Some u =>
      if negb (String.eqb (Users.role u) "student")
      then throw (App Errors.StudentsOnly)
      else
        deleted <-
          await (outcome env reset_devices)
                (delete with_user_devices
                   (fun d => String.eqb (UserDevices.user_id d) userId)) ;;
        match error deleted with
        | Some _ => throw (App Errors.ResetFailed)
        | None =>
            await (outcome env reset_tokens)
                  (delete with_refresh_tokens
                     (fun t => String.eqb (RefreshTokens.user_id t) userId)) ;;;
            await (outcome env reset_status)
                  (update with_users (Users.set_status "active")
                     (fun r => String.eqb (Users.id r) userId)) ;;;
            AuditService.log env adminId "DEVICE_RESET"
              ("Reset devices for student ID: " ++ userId
               ++ " - Devices deleted, tokens revoked, security flags reset. Course data preserved.") ;;;
            ret reset_done
        end
  end.

End DeviceService.

(** ** Observations used by the statements *)

(** The refresh-token rows of an account. *)
Definition tokens_of (uid : string) (db : Db) : list RefreshTokens.row :=
  filter (fun t => String.eqb (RefreshTokens.user_id t) uid) (refresh_tokens db).

(** Its live rows at time [t]: not revoked and not expired, the filter of
    the liveness query of [authenticate]. *)
Definition live_tokens (t : Z) (uid : string) (db : Db) : list RefreshTokens.row :=
  filter (Middleware.live t) (tokens_of uid db).

(** The device records of an account, and the fingerprints on file. *)
Definition devices_of (uid : string) (db : Db) : list UserDevices.row :=
  AuthService.devices_of uid db.

Definition fingerprints (uid : string) (db : Db) : list string :=
  map UserDevices.device_id (devices_of uid db).


(** The value stored under a settings key, when exactly one row has it. *)
Definition stored_setting (key : string) (db : Db) : option string :=
  match AuthService.setting key db with
  | [s] => Some (SystemSettings.setting_value s)
  | _ => None
  end.

Definition by_email (email : string) : Db -> list Users.row :=
  select users (fun u => String.eqb (Users.email u) email).

Definition by_id (uid : string) : Db -> list Users.row :=
  select users (fun u => String.eqb (Users.id u) uid).

Definition is_student (u : Users.row) : bool := String.eqb (Users.role u) "student".

(** The request a client sends on a protected route after
    [authenticate] accepted its access token. *)
Definition request_with (access : Jwt) (header : option string) (u : Users.row)
  : Middleware.Req :=
  Middleware.mkReq (Some access) header
    (Some (Middleware.ReqUser.mk (Users.id u) (Users.status u)
             (userId (payload access)) (role (payload access))
             (deviceId (payload access)))).

(** A run of login calls, one after the other, whatever each returns. *)
Record LoginCall := mkLoginCall {
  call_env : Env;
  call_email : string;
  call_password : string;
  call_deviceId : option string
}.

Definition run_login (c : LoginCall) : M AuthService.LoginResult :=
  AuthService.login (call_env c) (call_email c) (call_password c) (call_deviceId c).


(** The computation ran to its end, without a throw. *)
Definition completes {A} (run : Result A * Db) : bool :=
  match fst run with
  | Ok _ => true
  | Throw _ => false
  end.

(** The error a run ended with, if it is an [AppError]. *)
Definition app_error {A} (run : Result A * Db) : option AppError :=
  match fst run with
  | Throw (App e) => Some e
  | _ => None
  end.

(** [login] gets past its credential checks with the row [u]: the
    lookup by e-mail answers with exactly this row, the account is not
    blocked and the password matches. *)
Definition credentials_accepted (env : Env) (email password : string) (db : Db)
  (u : Users.row) : Prop :=
  outcome env login_users = Succeeds
  /\ by_email email db = [u]
  /\ String.eqb (Users.status u) "blocked" = false
  /\ bcrypt_compare env password (Users.password_hash u) = true.

(** The read of the enforcement flag at [site] answers, and the value
    stored is ['true']. *)
Definition reads_enforcement_on (env : Env) (site : Site) (db : Db) : Prop :=
  outcome env site = Succeeds
  /\ stored_setting "device_tracking_enabled" db = Some "true".

(** Every awaited call of the invocation answers, with data or with an
    error object: none rejects. *)
Definition answers (env : Env) : Prop :=
  forall s, outcome env s <> Rejects.

(** [authenticate] gets as far as its liveness check for the student
    row [u]: the bearer token verifies, the account it names is read as
    the single row [u], which is a student's and not blocked. *)
Definition reaches_liveness_check (env : Env) (req : Middleware.Req) (db : Db)
  (u : Users.row) : Prop :=
  exists tok,
    Middleware.bearer req = Some tok
    /\ jwt_verify tok jwtSecret (now env) = inl (payload tok)
    /\ outcome env authenticate_users = Succeeds
    /\ by_id (userId (payload tok)) db = [u]
    /\ String.eqb (Users.status u) "blocked" = false
    /\ Users.role u = "student".


(** ** Auxiliary notions of the proofs *)

(** A computation keeps the relation [R] between the database it starts
    from and the one it leaves, whatever it returns or throws. *)
Definition frames (R : Db -> Db -> Prop) {A} (c : M A) : Prop :=
  forall db r db', c db = (r, db') -> R db db'.




Definition bound_device (role : string) (dev : option string) : option string :=
  if String.eqb role "student" && Js.truthy dev then dev else None.

(** The pair of tokens [generateTokens] signs, and the row it stores. *)
Definition issued (env : Env) (uid role : string) (dev : option string)
  : AuthService.Tokens :=
  AuthService.mkTokens
    (jwt_sign (mkPayload uid role (bound_device role dev) None)
              jwtSecret jwtExpiresIn (now env))
    (jwt_sign (mkPayload uid role (bound_device role dev) (Some (uuidv4 env)))
              jwtRefreshSecret jwtRefreshExpiresIn (now env)).

Definition issued_row (env : Env) (uid role : string) (dev : option string)
  : RefreshTokens.row :=
  RefreshTokens.mk uid (AuthService.refreshToken (issued env uid role dev)) dev
    (now env + seven_days) false.

(** The database after the revocation step of [login]. *)
Definition after_revoke (env : Env) (u : Users.row) (db : Db) : Db :=
  if is_student u then
    match outcome env login_revoke with
    | Succeeds =>
        with_refresh_tokens
          (filter (fun t => negb (String.eqb (RefreshTokens.user_id t) (Users.id u)))) db
    | _ => db
    end
  else db.

(** The database after the insert of [generateTokens]. *)
Definition after_issue (env : Env) (uid role : string) (dev : option string) (db : Db)
  : Db :=
  match outcome env generateTokens_insert with
  | Succeeds =>
      with_refresh_tokens (fun l => (l ++ [issued_row env uid role dev])%list) db
  | _ => db
  end.

(** What a read of the enforcement flag that ends as [o] makes the code
    see: on only if the call answers and the one row stored says
    ['true']. *)
Definition enforcement_observed (o : Outcome) (db : Db) : bool :=
  match o, stored_setting "device_tracking_enabled" db with
  | Succeeds, Some v => String.eqb v "true"
  | _, _ => false
  end.

(** All refresh-token rows of the account marked revoked. *)
Definition revoke_all (uid : string) (db : Db) : Db :=
  with_refresh_tokens
    (map (fun t => if String.eqb (RefreshTokens.user_id t) uid
                   then RefreshTokens.set_revoked true t else t)) db.

(** The database a completed [resetStudentDevices] leaves: the device
    records of the account deleted, then each later write applied if the
    store carried it out. *)
Definition after_reset (env : Env) (uid adminId : string) (db : Db) : Db :=
  let db1 :=
    with_user_devices
      (filter (fun d => negb (String.eqb (UserDevices.user_id d) uid))) db in
  let db2 :=
    match outcome env reset_tokens with
    | Succeeds =>
        with_refresh_tokens
          (filter (fun t => negb (String.eqb (RefreshTokens.user_id t) uid))) db1
    | _ => db1
    end in
  let db3 :=
    match outcome env reset_status with
    | Succeeds =>
        with_users (map (fun r => if String.eqb (Users.id r) uid
                                  then Users.set_status "active" r else r)) db2
    | _ => db2
    end in
  match outcome env audit_insert with
  | Succeeds =>
      with_audit_logs
        (fun l => (l ++ [AuditLogs.mk adminId "DEVICE_RESET"
                           ("Reset devices for student ID: " ++ uid
                            ++ " - Devices deleted, tokens revoked, security flags reset. Course data preserved.")])%list)
        db3
  | _ => db3
  end.

(** ** A concrete installation *)

Module Scenario.

Definition calm : Site -> Outcome := fun _ => Succeeds.

(** Every call answers normally except the one at [s], which ends as
    [o]. *)
Definition faulty (s : Site) (o : Outcome) : Site -> Outcome :=
  fun x => if site_eq_dec s x then o else Succeeds.

Definition compare (password hash : string) : bool :=
  String.eqb hash ("bcrypt:" ++ password).

Definition env (t : Z) (uuid : string) : Env := mkEnv calm t uuid compare.

Definition env_with (s : Site) (o : Outcome) (t : Z) (uuid : string) : Env :=
  mkEnv (faulty s o) t uuid compare.

Definition asha : Users.row :=
  Users.mk "u-asha" "asha@example.org" "bcrypt:s3cret" "student" "active".

Definition admin : Users.row :=
  Users.mk "u-root" "root@example.org" "bcrypt:hunter2" "admin" "active".

Definition enforcement_on : SystemSettings.row :=
  SystemSettings.mk "device_tracking_enabled" "true".

Definition one_device : SystemSettings.row :=
  SystemSettings.mk "max_devices_per_student" "1".

(** Enforcement switched on, at most one device per student, nothing
    registered yet. *)
Definition enforced : Db := mkDb [asha; admin] [] [] [enforcement_on; one_device] [].

(** A fresh installation: no settings row at all. *)
Definition fresh : Db := mkDb [asha; admin] [] [] [] [].

Definition laptop : string := "9f2c51aa".
Definition phone : string := "41d07be3".

Definition device (uid fingerprint : string) (blocked : bool) : UserDevices.row :=
  UserDevices.mk uid fingerprint blocked (Some 1) None (Some 0) (Some 0).

(** Enforcement switched off by an administrator, with one device on
    file for the student and a limit of one. *)
Definition switched_off : Db :=
  mkDb [asha; admin] [] [device "u-asha" laptop false]
       [SystemSettings.mk "device_tracking_enabled" "false"; one_device] [].

(** Enforcement on, with the student's laptop on file and blocked. *)
Definition laptop_blocked : Db :=
  mkDb [asha; admin] [] [device "u-asha" laptop true]
       [enforcement_on; SystemSettings.mk "max_devices_per_student" "2"] [].

Definition login_from (t : Z) (uuid : string) (fingerprint : option string)
  : LoginCall :=
  mkLoginCall (env t uuid) "asha@example.org" "s3cret" fingerprint.

End Scenario.

(** * The rest of the session and device code

    The other functions of the files above: the remaining methods of
    [AuthService] and [DeviceService], the role checks of
    [middlewares/rbac.middleware.js] and the limit check and device
    naming of [middlewares/deviceTracking.middleware.js].  Columns of a
    table that no modelled function reads ([name], [phone],
    [updated_by], ...) stay left out of its rows. *)

(** The awaited store calls of these functions, in source order. *)
Inductive Call :=
(* AuthService.register *)
| register_existing | register_insert
(* AuthService.logout *)
| logout_revoke
(* AuthService.resetDevice *)
| resetDevice_delete
(* AuthService.changePassword *)
| changePassword_user | changePassword_update | changePassword_revoke
(* DeviceService.forceLogoutStudent *)
| forceLogout_user | forceLogout_revoke
(* DeviceService.getGlobalDeviceLimit *)
| getLimit_read
(* DeviceService.setGlobalDeviceLimit *)
| setLimit_update
(* DeviceService.getDeviceSettings *)
| getSettings_read
(* DeviceService.toggleDeviceEnforcement *)
| toggle_existing | toggle_update | toggle_insert
(* DeviceService.resetAllStudentDevices *)
| resetAll_students | resetAll_devices | resetAll_tokens
(* checkDeviceLimit of deviceTracking.middleware.js *)
| tracking_devices.

(** What one invocation of these functions gets from outside the store:
    the environment of the functions above, how each further awaited call
    ends, the hash [bcrypt.hash] computes and the [id] the store gives a
    new [users] row. *)
Record Ctx := mkCtx {
  base : Env;
  ended : Call -> Outcome;
  bcrypt_hash : string -> string;
  generated_id : string
}.

(** [config.maxDevicesPerStudent] and the messages of the further
    errors. *)
Definition config_maxDevicesPerStudent : Z := 1.

Module MoreErrors.
Definition UserExists :=
  mkAppError "User with this email already exists" 400 None.
Definition CreateUserFailed :=
  mkAppError "Failed to create user" 500 None.
Definition ResetDeviceFailed :=
  mkAppError "Failed to reset device" 500 None.
Definition CurrentPasswordIncorrect :=
  mkAppError "Current password is incorrect" 401 None.
Definition ChangePasswordFailed :=
  mkAppError "Failed to change password" 500 None.
Definition ForceLogoutFailed :=
  mkAppError "Failed to force logout student" 500 None.
Definition InvalidDeviceLimit :=
  mkAppError "Device limit must be 1 or 2" 400 None.
Definition UpdateLimitFailed :=
  mkAppError "Failed to update device limit" 500 None.
Definition FetchSettingsFailed :=
  mkAppError "Failed to fetch device settings" 500 None.
Definition ToggleFailed :=
  mkAppError "Failed to toggle device enforcement" 500 None.
Definition AuthenticationRequired :=
  mkAppError "Authentication required" 401 None.
Definition AccessDenied (roles : list string) :=
  mkAppError ("Access denied. This action requires " ++ String.concat " or " roles
              ++ " role.") 403 None.
Definition OwnResourcesOnly :=
  mkAppError "Access denied. You can only access your own resources." 403 None.
Definition OneDeviceOnly :=
  mkAppError
    "Device limit reached. You can only access from one device. Please contact admin to reset your device."
    403 None.
End MoreErrors.

Definition set_password_hash (h : string) (r : Users.row) : Users.row :=
  Users.mk (Users.id r) (Users.email r) h (Users.role r) (Users.status r).

Definition set_setting_value (v : string) (r : SystemSettings.row) : SystemSettings.row :=
  SystemSettings.mk (SystemSettings.setting_key r) v.

Definition with_system_settings
  (f : list SystemSettings.row -> list SystemSettings.row) (db : Db) : Db :=
  mkDb (users db) (refresh_tokens db) (user_devices db) (f (system_settings db))
       (audit_logs db).

(** [.from(t).insert(row).select(..).single()]: the row as stored. *)
Definition insert_returning {R} (w : (list R -> list R) -> Db -> Db) (r : R) : Query R :=
  fun db => (ok r, w (fun l => (l ++ [r])%list) db).

(** ** AuthService, the other methods *)

Module Auth.

(** The fields of [userData] the code reads; [role] is ['student'] when
    it is not given. *)
Record UserData := mkUserData {
  email : string;
  password : string;
  role : option string;
  deviceId : option string
}.

Definition role_or_student (r : option string) : string :=
  match r with
  | Some s => s
  | None => "student"
  end.

(** [register(userData)], auth.service.js lines 10-56. *)
Definition register (ctx : Ctx) (userData : UserData) : M AuthService.LoginResult :=
  existingUser <-
    await (ended ctx register_existing)
          (single (select users (fun u => String.eqb (Users.email u) (email userData)))) ;;
  match data existingUser with
  | Some _ => throw (App MoreErrors.UserExists)
  | None =>
      let password_hash := bcrypt_hash ctx (password userData) in
      created <-
        await (ended ctx register_insert)
              (insert_returning with_users
                 (Users.mk (generated_id ctx) (email userData) password_hash
                    (role_or_student (role userData)) "active")) ;;
      match error created, data created with
      | None, Some user =>
          issued <-
            AuthService.generateTokens (base ctx) (Users.id user) (Users.role user)
              (deviceId userData) ;;
          ret (AuthService.mkLoginResult user issued)
      | _, _ => throw (App MoreErrors.CreateUserFailed)
      end
  end.

(** [logout(refreshToken)], lines 205-217; the result is [success]. *)
Definition logout (ctx : Ctx) (refreshToken : option Jwt) : M bool :=
  match refreshToken with
  | None => ret true
  | Some token =>
      await (ended ctx logout_revoke)
            (update with_refresh_tokens (RefreshTokens.set_revoked true)
               (fun t => jwt_eqb (RefreshTokens.token t) token)) ;;;
      ret true
  end.

(** [resetDevice(userId)], lines 309-320. *)
Definition resetDevice (ctx : Ctx) (userId : string) : M bool :=
  deleted <-
    await (ended ctx resetDevice_delete)
          (delete with_user_devices
             (fun d => String.eqb (UserDevices.user_id d) userId)) ;;
  match error deleted with
  | Some _ => throw (App MoreErrors.ResetDeviceFailed)
  | None => ret true
  end.

(** [changePassword(userId, currentPassword, newPassword)], lines
    323-361. *)
Definition changePassword (ctx : Ctx) (userId currentPassword newPassword : string)
  : M bool :=
  found <-
    await (ended ctx changePassword_user)
          (single (select users (fun u => String.eqb (Users.id u) userId))) ;;
  match data found with
  | None => throw (App Errors.UserNotFound)
  | Some user =>
      if negb (bcrypt_compare (base ctx) currentPassword (Users.password_hash user))
      then throw (App MoreErrors.CurrentPasswordIncorrect)
      else
        let newPasswordHash := bcrypt_hash ctx newPassword in
        updated <-
          await (ended ctx changePassword_update)
                (update with_users (set_password_hash newPasswordHash)
                   (fun u => String.eqb (Users.id u) userId)) ;;
        match error updated with
        | Some _ => throw (App MoreErrors.ChangePasswordFailed)
        | None =>
            await (ended ctx changePassword_revoke)
                  (update with_refresh_tokens (RefreshTokens.set_revoked true)
                     (fun t => String.eqb (RefreshTokens.user_id t) userId)) ;;;
            ret true
        end
  end.

End Auth.

(** ** DeviceService, the other methods *)

Module Devices.

(** [forceLogoutStudent(userId, adminId)], device.service.js lines
    89-123. *)
Definition forceLogoutStudent (ctx : Ctx) (userId adminId : string) : M bool :=
  found <-
    await (ended ctx forceLogout_user)
          (single (select users (fun u => String.eqb (Users.id u) userId))) ;;
  match data found with
  | None => throw (App Errors.UserNotFound)
  | Some user =>
      if negb (String.eqb (Users.role user) "student")
      then throw (App Errors.StudentsOnly)
      else
        revoked <-
          await (ended ctx forceLogout_revoke)
                (update with_refresh_tokens (RefreshTokens.set_revoked true)
                   (fun t => String.eqb (RefreshTokens.user_id t) userId)) ;;
        match error revoked with
        | Some _ => throw (App MoreErrors.ForceLogoutFailed)
        | None =>
            AuditService.log (base ctx) adminId "FORCE_LOGOUT"
              ("Forced logout for student ID: " ++ userId) ;;;
            ret true
        end
  end.

(** [parseInt(s) || 1]. *)
Definition parseInt_or_one (s : string) : Z :=
  match Js.parseInt s with
  | Some 0 | None => 1
  | Some n => n
  end.

(** [getGlobalDeviceLimit()], lines 202-214. *)
Definition getGlobalDeviceLimit (ctx : Ctx) : M Z :=
  found <-
    await (ended ctx getLimit_read)
          (single (AuthService.setting "max_devices_per_student")) ;;
  match error found, data found with
  | None, Some s => ret (parseInt_or_one (SystemSettings.setting_value s))
  | _, _ => ret 1
  end.

(** [setGlobalDeviceLimit(limit, adminId)], lines 217-243; the result is
    the [limit] it reports. *)
Definition setGlobalDeviceLimit (ctx : Ctx) (limit : Z) (adminId : string) : M Z :=
  if negb (existsb (Z.eqb limit) [1; 2])
  then throw (App MoreErrors.InvalidDeviceLimit)
  else
    updated <-
      await (ended ctx setLimit_update)
            (update with_system_settings (set_setting_value (Js.toString limit))
               (fun s => String.eqb (SystemSettings.setting_key s)
                                    "max_devices_per_student")) ;;
    match error updated with
    | Some _ => throw (App MoreErrors.UpdateLimitFailed)
    | None =>
        AuditService.log (base ctx) adminId "DEVICE_LIMIT_CHANGED"
          ("Changed global device limit to " ++ Js.toString limit) ;;;
        ret limit
    end.

Record DeviceSettings := mkDeviceSettings {
  maxDevicesPerStudent : Z;
  deviceTrackingEnabled : bool
}.

(** [settingsMap[key]] after the [forEach]: the value of the last row
    with the key. *)
Definition settingsMap (settings : list SystemSettings.row) (key : string)
  : option string :=
  option_map SystemSettings.setting_value
    (find (fun s => String.eqb (SystemSettings.setting_key s) key) (rev settings)).

(** [getDeviceSettings()], lines 246-265.  [parseInt(undefined)] is
    [NaN]. *)
Definition getDeviceSettings (ctx : Ctx) : M DeviceSettings :=
  found <-
    await (ended ctx getSettings_read)
          (rows (select system_settings
                   (fun s => existsb (String.eqb (SystemSettings.setting_key s))
                               ["max_devices_per_student"; "device_tracking_enabled"]))) ;;
  match error found, data found with
  | None, Some settings =>
      ret (mkDeviceSettings
             (match settingsMap settings "max_devices_per_student" with
              | Some v => parseInt_or_one v
              | None => 1
              end)
             (match settingsMap settings "device_tracking_enabled" with
              | Some v => String.eqb v "true"
              | None => false
              end))
  | _, _ => throw (App MoreErrors.FetchSettingsFailed)
  end.

(** [toggleDeviceEnforcement(enabled, adminId)], lines 268-318; the
    result is the [enabled] it reports. *)
Definition toggleDeviceEnforcement (ctx : Ctx) (enabled : bool) (adminId : string)
  : M bool :=
  let value := if enabled then "true" else "false" in
  existing <-
    await (ended ctx toggle_existing)
          (single (AuthService.setting "device_tracking_enabled")) ;;
  match data existing with
  | Some _ =>
      updated <-
        await (ended ctx toggle_update)
              (update with_system_settings (set_setting_value value)
                 (fun s => String.eqb (SystemSettings.setting_key s)
                                      "device_tracking_enabled")) ;;
      match error updated with
      | Some _ => throw (App MoreErrors.ToggleFailed)
      | None => ret tt
      end
  | None =>
      inserted <-
        await (ended ctx toggle_insert)
              (insert with_system_settings
                 (SystemSettings.mk "device_tracking_enabled" value)) ;;
      match error inserted with
      | Some _ => throw (App MoreErrors.ToggleFailed)
      | None => ret tt
      end
  end ;;;
  AuditService.log (base ctx) adminId "DEVICE_ENFORCEMENT_TOGGLED"
    ("Device enforcement " ++ (if enabled then "enabled" else "disabled")) ;;;
  ret enabled.



End Devices.

(** ** Role checks, rbac.middleware.js *)

Module Rbac.

(** [authorize(...roles)], lines 4-21. *)
Definition authorize (roles : list string) (req : Middleware.Req) : Middleware.Next :=
  match Middleware.user req with
  | None => Middleware.next_error (App MoreErrors.AuthenticationRequired)
  | Some u =>
      if negb (existsb (String.eqb (Middleware.ReqUser.role u)) roles)
      then Middleware.next_error (App (MoreErrors.AccessDenied roles))
      else Middleware.next
  end.

Definition isStudent := authorize ["student"].
Definition isTeacher := authorize ["teacher"].
Definition isAdmin := authorize ["admin"].
Definition isTeacherOrAdmin := authorize ["teacher"; "admin"].

(** [isAdminOrSelf], lines 36-48; [param] is
    [req.params.userId || req.params.id]. *)
Definition isAdminOrSelf (param : option string) (req : Middleware.Req)
  : Middleware.Next :=
  match Middleware.user req with
  | None => Middleware.next_error (App MoreErrors.AuthenticationRequired)
  | Some u =>
      if String.eqb (Middleware.ReqUser.role u) "admin"
         || Js.strict_eq (Some (Middleware.ReqUser.id u)) param
      then Middleware.next
      else Middleware.next_error (App MoreErrors.OwnResourcesOnly)
  end.

End Rbac.

(** ** Device tracking, deviceTracking.middleware.js *)

Module DeviceTracking.

(** [s.includes(t)]. *)
Fixpoint includes (s t : string) : bool :=
  if String.prefix t s then true
  else match s with
       | String _ rest => includes rest t
       | EmptyString => false
       end.

(** [extractDeviceName(userAgent)], lines 102-113. *)
Definition extractDeviceName (userAgent : string) : string :=
  if String.eqb userAgent "" then "Unknown Device"
  else if includes userAgent "Windows" then "Windows PC"
  else if includes userAgent "Mac" then "Mac"
  else if includes userAgent "Linux" then "Linux PC"
  else if includes userAgent "iPhone" then "iPhone"
  else if includes userAgent "iPad" then "iPad"
  else if includes userAgent "Android" then "Android Device"
  else "Unknown Device".

Definition checkDeviceLimit_try (ctx : Ctx) (deviceId : string) (u : Middleware.ReqUser.t)
  : M Middleware.Next :=
  found <-
    await (ended ctx tracking_devices)
          (rows (AuthService.devices_of (Middleware.ReqUser.id u))) ;;
  match error found, data found with
  | Some _, _ => ret Middleware.next
  | None, Some devices =>
      let isDeviceRegistered :=
        existsb (fun d => String.eqb (UserDevices.device_id d) deviceId) devices in
      if negb isDeviceRegistered
         && (config_maxDevicesPerStudent <=? Z.of_nat (length devices))
      then ret (Middleware.next_error (App MoreErrors.OneDeviceOnly))
      else ret Middleware.next
  | None, None => throw (Other "TypeError")
  end.

(** [checkDeviceLimit(req, res, next)], lines 60-99; [deviceId] is
    [req.deviceId || generateDeviceId(req)], the fingerprint of the
    request. *)
Definition checkDeviceLimit (ctx : Ctx) (deviceId : string) (req : Middleware.Req)
  : Db -> Middleware.Next * Db :=
  fun db =>
    match Middleware.user req with
    | None => (Middleware.next, db)
    | Some u =>
        if negb (String.eqb (Middleware.ReqUser.role u) "student")
        then (Middleware.next, db)
        else
          match checkDeviceLimit_try ctx deviceId u db with
          | (Ok n, db') => (n, db')
          | (Throw _, db') => (Middleware.next, db')
          end
    end.

End DeviceTracking.

(** ** Auxiliary notions for these functions *)

(** The update of the settings row(s) stored under [key]. *)
Definition rewrite_setting (key v : string) (r : SystemSettings.row) : SystemSettings.row :=
  if String.eqb (SystemSettings.setting_key r) key then set_setting_value v r else r.

(** The settings after the write of [toggleDeviceEnforcement]: the row
    inserted when none is read, updated otherwise. *)
Definition after_toggle (enabled : bool) (db : Db) : Db :=
  let value := if enabled then "true" else "false" in
  match AuthService.setting "device_tracking_enabled" db with
  | [] =>
      with_system_settings
        (fun l => (l ++ [SystemSettings.mk "device_tracking_enabled" value])%list) db
  | _ =>
      with_system_settings (map (rewrite_setting "device_tracking_enabled" value)) db
  end.




(** A computation that only reads: it leaves the database it started
    from, whatever it returns or throws. *)
Definition reads_only {A} (c : M A) : Prop :=
  frames (fun db db' => db' = db) c.

(** A computation that runs to its end. *)
Definition never_throws {A} (c : M A) : Prop :=
  forall db e db', c db <> (Throw e, db').

(** A computation that throws only errors in [P], and only before it
    has written anything. *)
Definition fails_cleanly (P : Exn -> Prop) {A} (c : M A) : Prop :=
  forall db e db', c db = (Throw e, db') -> db' = db /\ P e.

(** The errors a caller gets for a request that is refused: an
    [AppError] of status 401 or 403. *)
Definition refusal (e : Exn) : Prop :=
  exists ae, e = App ae /\ (statusCode ae = 401 \/ statusCode ae = 403).

(** ** Further concrete data *)

Module Cases.

Definition quiet : Call -> Outcome := fun _ => Succeeds.

Definition hash (password : string) : string := "bcrypt:" ++ password.

Definition ctx (t : Z) (uuid : string) : Ctx :=
  mkCtx (Scenario.env t uuid) quiet hash "u-new".

Definition teacher : Users.row :=
  Users.mk "u-tara" "tara@example.org" "bcrypt:chalk" "teacher" "active".

(** The student logged in from the laptop, a teacher with a session of
    her own, enforcement on with a limit of one, the laptop on file. *)
Definition school : Db :=
  mkDb [Scenario.asha; Scenario.admin; teacher]
       [issued_row (Scenario.env 100 "a1") "u-asha" "student" (Some Scenario.laptop);
        issued_row (Scenario.env 110 "t1") "u-tara" "teacher" None]
       [Scenario.device "u-asha" Scenario.laptop false;
        Scenario.device "u-tara" Scenario.phone false]
       [Scenario.enforcement_on; Scenario.one_device] [].

Definition asha_refresh : Jwt :=
  AuthService.refreshToken
    (issued (Scenario.env 100 "a1") "u-asha" "student" (Some Scenario.laptop)).

Definition asha_access : Jwt :=
  AuthService.accessToken
    (issued (Scenario.env 100 "a1") "u-asha" "student" (Some Scenario.laptop)).

Definition tara_access : Jwt :=
  AuthService.accessToken (issued (Scenario.env 110 "t1") "u-tara" "teacher" None).

End Cases.

(** * Proofs *)

Unset Implicit Arguments.

(** ** Tokens and filters *)





Lemma filter_none {A} (p : A -> bool) (l : list A) :
  (forall x, In x l -> p x = false) -> filter p l = [].
Proof.
  induction l as [|a l IH]; simpl; intros H; trivial.
  rewrite (H a (or_introl eq_refl)). apply IH. intros x Hx. apply H. now right.
Qed.

Lemma filter_negb_same {A} (p : A -> bool) (l : list A) :
  filter p (filter (fun x => negb (p x)) l) = [].
Proof.
  apply filter_none. intros x Hx. apply filter_In in Hx.
  destruct Hx as [_ Hx]. now destruct (p x).
Qed.

Lemma filter_update_key {A} (p q : A -> bool) (f : A -> A) (l : list A) :
  (forall x, p (f x) = p x) ->
  filter p (map (fun x => if q x then f x else x) l)
  = map (fun x => if q x then f x else x) (filter p l).
Proof.
  intros Hf. induction l as [|a l IH]; simpl; trivial.
  destruct (q a) eqn:Q; [rewrite Hf|]; destruct (p a); simpl; rewrite ?Q, IH; trivial.
Qed.

(** ** What each step leaves alone *)




(** Rules for [frames], for a reflexive and transitive relation. *)
Section Frames.

Variable R : Db -> Db -> Prop.
Hypothesis R_refl : forall db, R db db.
Hypothesis R_trans : forall a b c, R a b -> R b c -> R a c.

Lemma frames_ret {A} (a : A) : frames R (ret a).
Proof. intros db r db' H. injection H as <- <-. apply R_refl. Qed.

Lemma frames_throw {A} (e : Exn) : frames R (@throw A e).
Proof. intros db r db' H. injection H as <- <-. apply R_refl. Qed.

Lemma frames_bind {A B} (c : M A) (k : A -> M B) :
  frames R c -> (forall a, frames R (k a)) -> frames R (bind c k).
Proof.
  intros Hc Hk db r db'. unfold bind.
  destruct (c db) as [[a|e] db1] eqn:E; intros H.
  - eapply R_trans; [eapply Hc, E | eapply Hk, H].
  - injection H as <- <-. eapply Hc, E.
Qed.

Lemma frames_try_catch {A} (c : M A) (h : Exn -> M A) :
  frames R c -> (forall e, frames R (h e)) -> frames R (try_catch c h).
Proof.
  intros Hc Hh db r db'. unfold try_catch.
  destruct (c db) as [[a|e] db1] eqn:E; intros H.
  - injection H as <- <-. eapply Hc, E.
  - eapply R_trans; [eapply Hc, E | eapply Hh, H].
Qed.

Lemma frames_await {A} (o : Outcome) (q : Query A) :
  (forall db, R db (snd (q db))) -> frames R (await o q).
Proof.
  intros Hq db r db'. unfold await. destruct o.
  - specialize (Hq db). destruct (q db) as [x db1]. intros H.
    injection H as <- <-. exact Hq.
  - intros H. injection H as <- <-. apply R_refl.
  - intros H. injection H as <- <-. apply R_refl.
Qed.

Lemma frames_single {R0} (o : Outcome) (s : Db -> list R0) :
  frames R (await o (single s)).
Proof.
  apply frames_await. intros db. unfold single.
  destruct (s db) as [|x [|y l]]; apply R_refl.
Qed.

Lemma frames_rows {R0} (o : Outcome) (s : Db -> list R0) :
  frames R (await o (rows s)).
Proof. apply frames_await. intros db. apply R_refl. Qed.

End Frames.

Arguments frames_bind [R] R_trans {A B} c k.
Arguments frames_try_catch [R] R_trans {A} c h.
Arguments frames_ret [R] R_refl {A} a.
Arguments frames_throw [R] R_refl {A} e.
Arguments frames_await [R] R_refl {A} o q.
Arguments frames_single [R] R_refl {R0} o s.
Arguments frames_rows [R] R_refl {R0} o s.

Ltac frame_step rf tr :=
  lazymatch goal with
  | |- frames _ (bind _ _) => apply (frames_bind tr); [| intros ?]
  | |- frames _ (try_catch _ _) => apply (frames_try_catch tr); [| intros ?]
  | |- frames _ (ret _) => apply (frames_ret rf)
  | |- frames _ (throw _) => apply (frames_throw rf)
  | |- frames _ (await _ (single _)) => apply (frames_single rf)
  | |- frames _ (await _ (rows _)) => apply (frames_rows rf)
  | |- frames _ (match ?x with _ => _ end) => destruct x
  end.

Ltac frame_walk rf tr := repeat (cbv zeta; frame_step rf tr).


(** ** Token issuance and login, step by step *)

Lemma generateTokens_run env uid role dev db :
  AuthService.generateTokens env uid role dev db
  = match outcome env generateTokens_insert with
    | Succeeds =>
        (Ok (issued env uid role dev),
         with_refresh_tokens (fun l => (l ++ [issued_row env uid role dev])%list) db)
    | ReturnsError => (Ok (issued env uid role dev), db)
    | Rejects => (Throw (Other "FetchError"), db)
    end.
Proof.
  unfold AuthService.generateTokens, bind, await, insert, ret.
  destruct (outcome env generateTokens_insert); reflexivity.
Qed.


(** ** Single session *)






(** ** Login and the device registry *)






(** C2, on the code: a student whose account has no device on file logs
    in from a new fingerprint with enforcement on and a limit of one; the
    login completes, and no device record exists for the account
    afterwards. *)
Theorem login_from_new_fingerprint_registers_nothing :
  let run := run_login (Scenario.login_from 100 "a1" (Some Scenario.laptop))
                       Scenario.enforced in
  completes run = true
  /\ fingerprints "u-asha" Scenario.enforced = []
  /\ fingerprints "u-asha" (snd run) = [].
Proof. repeat split. Qed.

(** C5, on the code: with enforcement on and a limit of one device, a
    student is admitted from a first fingerprint and then, no device
    having been put on file, also from a second one. *)
Theorem second_fingerprint_admitted_past_the_limit :
  let first := run_login (Scenario.login_from 100 "a1" (Some Scenario.laptop))
                         Scenario.enforced in
  let second := run_login (Scenario.login_from 200 "a2" (Some Scenario.phone))
                          (snd first) in
  stored_setting "max_devices_per_student" Scenario.enforced = Some "1"
  /\ stored_setting "device_tracking_enabled" Scenario.enforced = Some "true"
  /\ completes first = true
  /\ completes second = true
  /\ app_error second = None.
Proof. repeat split. Qed.

(** ** The device policy check *)

Lemma stored_setting_inv key db v :
  stored_setting key db = Some v ->
  exists s, AuthService.setting key db = [s] /\ SystemSettings.setting_value s = v.
Proof.
  unfold stored_setting.
  destruct (AuthService.setting key db) as [|s [|s' l]]; try discriminate.
  intros H. injection H as <-. now exists s.
Qed.


Lemma checkDeviceLimit_off env uid dev db :
  outcome env cdl_enforcement <> Rejects ->
  stored_setting "device_tracking_enabled" db <> Some "true" ->
  AuthService.checkDeviceLimit env uid dev db = (Ok tt, db).
Proof.
  intros Ho Hs. unfold AuthService.checkDeviceLimit, bind, await, single.
  destruct (outcome env cdl_enforcement); try contradiction; trivial.
  unfold stored_setting in Hs.
  destruct (AuthService.setting "device_tracking_enabled" db) as [|s [|s' l]];
    trivial.
  unfold AuthService.enforcement_enabled; simpl.
  destruct (String.eqb_spec (SystemSettings.setting_value s) "true") as [E|E];
    trivial.
  now rewrite E in Hs.
Qed.

Ltac enter_enforced Hon :=
  let Ho := fresh "Ho" in
  let s := fresh "s" in
  let Es := fresh "Es" in
  let Ev := fresh "Ev" in
  destruct Hon as [Ho Hon];
  apply stored_setting_inv in Hon; destruct Hon as (s & Es & Ev);
  unfold AuthService.checkDeviceLimit; unfold bind at 1; unfold await at 1;
  rewrite Ho; unfold single at 1; rewrite Es;
  unfold AuthService.enforcement_enabled; cbn [data ok]; rewrite Ev;
  cbn [String.eqb Ascii.eqb Bool.eqb negb andb].



Lemma existsb_fingerprint (dev : string) (l : list UserDevices.row) :
  ~ In dev (map UserDevices.device_id l) ->
  existsb (fun d => String.eqb (UserDevices.device_id d) dev) l = false.
Proof.
  intros H. destruct (existsb _ l) eqn:E; trivial.
  apply existsb_exists in E. destruct E as (d & Hin & Hd).
  apply String.eqb_eq in Hd. exfalso. apply H. rewrite <- Hd. now apply in_map.
Qed.

Lemma find_unregistered (dev : string) (l : list UserDevices.row) :
  ~ In dev (map UserDevices.device_id l) ->
  find (fun d => String.eqb (UserDevices.device_id d) dev && UserDevices.is_blocked d) l
  = None.
Proof.
  intros H. destruct (find _ l) as [d|] eqn:F; trivial.
  apply find_some in F. destruct F as [Hin Hd].
  apply andb_prop in Hd. destruct Hd as [Hd _]. apply String.eqb_eq in Hd.
  exfalso. apply H. rewrite <- Hd. now apply in_map.
Qed.

(** With [n] or more devices on file and a limit read as [n], a
    fingerprint that is not on file is refused, and nothing is written. *)
Lemma checkDeviceLimit_full env uid dev db v n :
  reads_enforcement_on env cdl_enforcement db ->
  outcome env cdl_max_devices = Succeeds ->
  stored_setting "max_devices_per_student" db = Some v ->
  Js.parseInt v = Some n ->
  outcome env cdl_devices = Succeeds ->
  ~ In dev (fingerprints uid db) ->
  n <= Z.of_nat (length (devices_of uid db)) ->
  AuthService.checkDeviceLimit env uid dev db
  = (Throw (App (Errors.DeviceLimitExceeded n)), db).
Proof.
  intros Hon Hmax Hv Hn Hdev Hnew Hfull.
  apply stored_setting_inv in Hv. destruct Hv as (m & Em & <-).
  enter_enforced Hon.
  unfold bind, await, rows, single. rewrite Hmax, Hdev, Em. cbn [data ok].
  unfold fingerprints, devices_of in *.
  rewrite (find_unregistered _ _ Hnew), (existsb_fingerprint _ _ Hnew), Hn.
  cbn [negb]. unfold AuthService.reached.
  destruct (Z.leb_spec n (Z.of_nat (length (AuthService.devices_of uid db))));
    [reflexivity | lia].
Qed.

(** ** Login past the credential checks *)

Lemma login_past_credentials env email pw dev db u :
  credentials_accepted env email pw db u ->
  AuthService.login env email pw dev db
  = (match dev with
     | Some d =>
         if is_student u && Js.truthy dev
         then AuthService.checkDeviceLimit env (Users.id u) d
         else ret tt
     | None => ret tt
     end ;;;
     (if is_student u
      then
        await (outcome env login_revoke)
              (delete with_refresh_tokens
                 (fun t => String.eqb (RefreshTokens.user_id t) (Users.id u))) ;;;
        ret tt
      else ret tt) ;;;
     issued0 <- AuthService.generateTokens env (Users.id u) (Users.role u) dev ;;
     ret (AuthService.mkLoginResult u issued0)) db.
Proof.
  intros (Ho & Eu & Es & Ep).
  unfold AuthService.login. unfold bind at 1. unfold await at 1.
  rewrite Ho. unfold single. fold (by_email email). rewrite Eu.
  cbn [error data ok]. rewrite Es, Ep. reflexivity.
Qed.

(** A refusal by the device check is the refusal of the login, and
    nothing else is written. *)
Lemma login_refused_by_device_check env email pw d db u e db1 :
  credentials_accepted env email pw db u ->
  is_student u = true -> d <> "" ->
  AuthService.checkDeviceLimit env (Users.id u) d db = (Throw e, db1) ->
  AuthService.login env email pw (Some d) db = (Throw e, db1).
Proof.
  intros Hc St Hd Hchk. rewrite (login_past_credentials _ _ _ _ _ _ Hc).
  unfold bind at 1. rewrite St. cbn [Js.truthy andb].
  destruct (String.eqb_spec d "") as [|_]; [contradiction|].
  cbn [negb]. now rewrite Hchk.
Qed.

(** Once the device stage is passed, a student login goes on to revoke
    and issue. *)
Lemma login_after_device_stage env email pw dev db u db1 :
  credentials_accepted env email pw db u ->
  match dev with
  | Some d =>
      if is_student u && Js.truthy dev
      then AuthService.checkDeviceLimit env (Users.id u) d
      else ret tt
  | None => ret tt
  end db = (Ok tt, db1) ->
  outcome env login_revoke <> Rejects ->
  outcome env generateTokens_insert <> Rejects ->
  AuthService.login env email pw dev db
  = (Ok (AuthService.mkLoginResult u (issued env (Users.id u) (Users.role u) dev)),
     after_issue env (Users.id u) (Users.role u) dev (after_revoke env u db1)).
Proof.
  intros Hc Hd Hr Hi. rewrite (login_past_credentials _ _ _ _ _ _ Hc).
  unfold bind at 1. rewrite Hd. unfold bind at 1.
  unfold after_revoke, after_issue.
  destruct (is_student u).
  - unfold bind at 1, await at 1, delete.
    destruct (outcome env login_revoke); try contradiction;
      unfold ret at 1; unfold bind; rewrite generateTokens_run;
      destruct (outcome env generateTokens_insert); try contradiction; reflexivity.
  - unfold ret at 1. unfold bind. rewrite generateTokens_run.
    destruct (outcome env generateTokens_insert); try contradiction; reflexivity.
Qed.

Lemma after_issue_devices env uid role dev db :
  user_devices (after_issue env uid role dev db) = user_devices db
  /\ system_settings (after_issue env uid role dev db) = system_settings db
  /\ users (after_issue env uid role dev db) = users db.
Proof. unfold after_issue. destruct (outcome env generateTokens_insert); now repeat split. Qed.

Lemma after_revoke_devices env u db :
  user_devices (after_revoke env u db) = user_devices db
  /\ system_settings (after_revoke env u db) = system_settings db
  /\ users (after_revoke env u db) = users db.
Proof.
  unfold after_revoke.
  destruct (is_student u), (outcome env login_revoke); now repeat split.
Qed.

(** With at least [n] devices on file, the limit read as [n] and
    enforcement on, a student login from a fingerprint that is not on
    file is refused with the device-limit error and leaves the whole
    database as it was. *)
Lemma login_refused_at_limit env email pw d db u v n :
  credentials_accepted env email pw db u ->
  Users.role u = "student" -> d <> "" ->
  reads_enforcement_on env cdl_enforcement db ->
  outcome env cdl_max_devices = Succeeds ->
  stored_setting "max_devices_per_student" db = Some v ->
  Js.parseInt v = Some n ->
  outcome env cdl_devices = Succeeds ->
  ~ In d (fingerprints (Users.id u) db) ->
  n <= Z.of_nat (length (devices_of (Users.id u) db)) ->
  AuthService.login env email pw (Some d) db
  = (Throw (App (Errors.DeviceLimitExceeded n)), db).
Proof.
  intros Hc St Hd Hon Hmax Hv Hn Hdev Hnew Hfull.
  apply login_refused_by_device_check with (u := u); trivial.
  - unfold is_student. now rewrite St.
  - now apply checkDeviceLimit_full with (v := v).
Qed.

Example refused_at_limit :
  AuthService.login (Scenario.env 100 "a1") "asha@example.org" "s3cret"
    (Some Scenario.phone)
    (mkDb [Scenario.asha] [] [Scenario.device "u-asha" Scenario.laptop false]
          [Scenario.enforcement_on; Scenario.one_device] [])
  = (Throw (App (Errors.DeviceLimitExceeded 1)),
     mkDb [Scenario.asha] [] [Scenario.device "u-asha" Scenario.laptop false]
          [Scenario.enforcement_on; Scenario.one_device] []).
Proof.
  apply login_refused_at_limit with (u := Scenario.asha) (v := "1");
    try reflexivity; try discriminate.
  - repeat split.
  - split; reflexivity.
  - intros [H|[]]. discriminate.
Qed.

(** ** Enforcement switched off *)

(** C6. Enforcement kill switch: when the enforcement flag is not read as
    ['true'] (the switch is off), a student login that gets past the
    credential checks is admitted from any fingerprint, whatever device
    records, device limit and block flags are stored, and the device
    records are left as they were: no count, block or record check is
    made. *)
Theorem enforcement_off_admits_any_device :
  forall (env : Env) (email password fingerprint : string) (db : Db) (u : Users.row),
    credentials_accepted env email password db u ->
    Users.role u = "student" ->
    stored_setting "device_tracking_enabled" db <> Some "true" ->
    answers env ->
    exists db',
      AuthService.login env email password (Some fingerprint) db
      = (Ok (AuthService.mkLoginResult u
               (issued env (Users.id u) "student" (Some fingerprint))), db')
      /\ user_devices db' = user_devices db.
Proof.
  intros env email pw fp db u Hc St Hoff Hans.
  eexists. split.
  - rewrite <- St. apply login_after_device_stage with (db1 := db); trivial.
    destruct (is_student u && Js.truthy (Some fp)); trivial.
    apply checkDeviceLimit_off; trivial.
  - destruct (after_issue_devices env (Users.id u) (Users.role u) (Some fp)
                (after_revoke env u db)) as (-> & _).
    apply after_revoke_devices.
Qed.

Lemma enforcement_off_admits_any_device_witness :
  exists db',
    AuthService.login (Scenario.env 100 "a1") "asha@example.org" "s3cret"
      (Some Scenario.phone) Scenario.switched_off
    = (Ok (AuthService.mkLoginResult Scenario.asha
             (issued (Scenario.env 100 "a1") "u-asha" "student" (Some Scenario.phone))),
       db')
    /\ user_devices db' = user_devices Scenario.switched_off.
Proof.
  apply (enforcement_off_admits_any_device (Scenario.env 100 "a1")
           "asha@example.org" "s3cret" Scenario.phone Scenario.switched_off
           Scenario.asha).
  - repeat split.
  - reflexivity.
  - discriminate.
  - intros s. discriminate.
Defined.

(** ** The per-request device check *)

Lemma observed_reply (o : Outcome) (db : Db) :
  forall r db1,
    await o (single (AuthService.setting "device_tracking_enabled")) db = (Ok r, db1) ->
    db1 = db /\ AuthService.enforcement_enabled r = enforcement_observed o db.
Proof.
  intros r db1. unfold await, single, enforcement_observed, stored_setting.
  destruct o; try discriminate.
  - destruct (AuthService.setting _ db) as [|s [|s' l]]; intros H;
      injection H as <- <-; split; reflexivity.
  - intros H. injection H as <- <-. split; reflexivity.
Qed.

(** [validateDevice], case by case. *)
Lemma validateDevice_cases env req db :
  Middleware.validateDevice env req db
  = match Middleware.user req with
    | None => (Middleware.next, db)
    | Some u =>
        if String.eqb (Middleware.ReqUser.role u) "student"
           && enforcement_observed (outcome env validate_enforcement) db
           && Js.truthy (Middleware.ReqUser.deviceId u)
        then
          if negb (Js.truthy (Middleware.x_device_id req))
          then (Middleware.next_error (App Errors.DeviceSessionInvalid), db)
          else if Js.strict_eq (Middleware.ReqUser.deviceId u) (Middleware.x_device_id req)
          then (Middleware.next, db)
          else
            match outcome env validate_revoke with
            | Succeeds =>
                (Middleware.next_error (App Errors.DeviceSessionInvalid),
                 revoke_all (Middleware.ReqUser.userId u) db)
            | ReturnsError =>
                (Middleware.next_error (App Errors.DeviceSessionInvalid), db)
            | Rejects => (Middleware.next, db)
            end
        else (Middleware.next, db)
    end.
Proof.
  unfold Middleware.validateDevice, Middleware.validateDevice_try.
  destruct (Middleware.user req) as [u|]; [|reflexivity].
  destruct (String.eqb_spec (Middleware.ReqUser.role u) "admin") as [->|_];
    [reflexivity|].
  destruct (String.eqb_spec (Middleware.ReqUser.role u) "teacher") as [->|_];
    [reflexivity|].
  cbn [orb].
  destruct (String.eqb (Middleware.ReqUser.role u) "student"); [|reflexivity].
  cbn [andb]. unfold bind at 1.
  destruct (await _ _ db) as [[r|e] db1] eqn:E.
  - apply observed_reply in E. destruct E as [-> E]. rewrite E.
    destruct (enforcement_observed _ db); [|reflexivity]. cbn [negb andb].
    destruct (Js.truthy (Middleware.ReqUser.deviceId u)); [|reflexivity].
    cbn [negb andb].
    destruct (Js.truthy (Middleware.x_device_id req)); [|reflexivity].
    cbn [negb andb].
    destruct (Js.strict_eq _ _); [reflexivity|]. cbn [negb].
    unfold bind, await, update, revoke_all.
    destruct (outcome env validate_revoke); reflexivity.
  - unfold await in E. unfold enforcement_observed.
    destruct (outcome env validate_enforcement); try discriminate.
    + destruct (single _ db); discriminate.
    + injection E as _ <-. reflexivity.
Qed.

Lemma observed_off o db :
  stored_setting "device_tracking_enabled" db <> Some "true" ->
  enforcement_observed o db = false.
Proof.
  unfold enforcement_observed. intros H.
  destruct o; trivial.
  destruct (stored_setting _ db) as [v|]; trivial.
  destruct (String.eqb_spec v "true") as [->|]; trivial. contradiction.
Qed.

Lemma observed_on env site db :
  reads_enforcement_on env site db -> enforcement_observed (outcome env site) db = true.
Proof. intros [-> E]. unfold enforcement_observed. now rewrite E. Qed.

(** C9. Default-off enforcement: when the [device_tracking_enabled] row is
    absent, or the value stored is any string other than ['true'] (so
    that the value read is not ['true']), the login-time device policy
    check returns at once without touching the database, and so does the
    per-request fingerprint check, for every account, fingerprint and
    request. *)
Theorem enforcement_is_off_unless_true :
  forall db : Db,
    stored_setting "device_tracking_enabled" db <> Some "true" ->
    (forall env uid fingerprint,
        outcome env cdl_enforcement <> Rejects ->
        AuthService.checkDeviceLimit env uid fingerprint db = (Ok tt, db))
    /\ (forall env req, Middleware.validateDevice env req db = (Middleware.next, db)).
Proof.
  intros db Hoff. split.
  - intros env uid fp Ho. now apply checkDeviceLimit_off.
  - intros env req. rewrite validateDevice_cases.
    destruct (Middleware.user req) as [u|]; trivial.
    rewrite observed_off by assumption. rewrite andb_false_r. reflexivity.
Qed.

Lemma enforcement_is_off_unless_true_witness :
  (forall env uid fingerprint,
      outcome env cdl_enforcement <> Rejects ->
      AuthService.checkDeviceLimit env uid fingerprint Scenario.fresh
      = (Ok tt, Scenario.fresh))
  /\ (forall env req,
         Middleware.validateDevice env req Scenario.fresh
         = (Middleware.next, Scenario.fresh)).
Proof.
  apply (enforcement_is_off_unless_true Scenario.fresh). discriminate.
Defined.

(** ** Blocked devices *)



(** ** Login without a fingerprint *)




(** ** Fingerprint binding *)





Lemma live_after_revoke_all t uid db : live_tokens t uid (revoke_all uid db) = [].
Proof.
  unfold live_tokens, tokens_of, revoke_all; cbn.
  apply filter_none. intros r Hin. apply filter_In in Hin.
  destruct Hin as [Hin Hu]. apply in_map_iff in Hin. destruct Hin as (r0 & <- & _).
  destruct (String.eqb (RefreshTokens.user_id r0) uid) eqn:E; [reflexivity|].
  rewrite E in Hu. discriminate.
Qed.







(** ** Failure modes of the two per-request checks *)

Lemma filter_andb {A} (p q : A -> bool) (l : list A) :
  filter (fun x => p x && q x) l = filter q (filter p l).
Proof.
  induction l as [|a l IH]; cbn; trivial.
  destruct (p a); cbn; [destruct (q a)|]; now rewrite IH.
Qed.

(** The liveness query of [authenticate], awaited with outcome [o]. *)
Lemma liveness_query o t uid db :
  await o
    (rows (limit 1
             (select refresh_tokens
                (fun r => String.eqb (RefreshTokens.user_id r) uid && Middleware.live t r))))
    db
  = match o with
    | Succeeds => (Ok (ok (firstn 1 (live_tokens t uid db))), db)
    | ReturnsError => (Ok (failed "store error"), db)
    | Rejects => (Throw (Other "FetchError"), db)
    end.
Proof.
  unfold await, rows, limit, select, live_tokens, tokens_of.
  destruct o; trivial. now rewrite filter_andb.
Qed.

(** [authenticate] from its liveness check on. *)
Lemma authenticate_at_liveness_check env req db u :
  reaches_liveness_check env req db u ->
  Middleware.authenticate env req db
  = match outcome env authenticate_valid_tokens with
    | Succeeds =>
        match live_tokens (now env) (Users.id u) db with
        | [] => ((req, Middleware.next_error (App Errors.SessionExpiredElsewhere)), db)
        | _ :: _ =>
            match Middleware.bearer req with
            | Some tok =>
                ((Middleware.mkReq (Middleware.bearer req) (Middleware.x_device_id req)
                    (Some (Middleware.ReqUser.mk (Users.id u) (Users.status u)
                             (userId (payload tok)) (role (payload tok))
                             (deviceId (payload tok)))),
                  Middleware.next), db)
            | None => ((req, Middleware.next), db)
            end
        end
    | ReturnsError =>
        ((req, Middleware.next_error (App Errors.SessionExpiredElsewhere)), db)
    | Rejects => ((req, Middleware.next_error (Other "FetchError")), db)
    end.
Proof.
  intros (tok & Hb & Hv & Ho & Hu & Hs & Hr).
  unfold Middleware.authenticate, Middleware.authenticate_try.
  rewrite Hb, Hv. unfold bind at 1. unfold await at 1. rewrite Ho.
  unfold single. fold (by_id (userId (payload tok))). rewrite Hu.
  cbn [error data ok]. rewrite Hs, Hr. cbn [String.eqb Ascii.eqb Bool.eqb].
  unfold bind at 1. unfold bind at 1. rewrite liveness_query.
  destruct (outcome env authenticate_valid_tokens); trivial.
  cbn [error data ok]. now destruct (live_tokens (now env) (Users.id u) db).
Qed.

(** C3, as amended. In the fingerprint check ([validateDevice]) a store
    failure lets the request proceed: an unanswered or failed read of the
    enforcement flag, and whatever is thrown inside the middleware; a
    policy failure there (the bound credential presented without a
    fingerprint, or with another one while the revocation call answers)
    fails closed with DeviceSessionInvalid. The liveness check of
    [authenticate] fails closed in every case: a student request that
    reaches it proceeds only if the query answered without error and
    there is a live refresh-token row; with no live row, and equally when
    the store answers the query with an error, the request is refused with
    SessionExpiredElsewhere. *)
Theorem validator_failure_modes :
  (forall env req db,
      outcome env validate_enforcement <> Succeeds ->
      Middleware.validateDevice env req db = (Middleware.next, db))
  /\ (forall env req db e db1,
         Middleware.validateDevice_try env req db = (Throw e, db1) ->
         Middleware.validateDevice env req db = (Middleware.next, db1))
  /\ (forall env req db u,
         Middleware.user req = Some u ->
         Middleware.ReqUser.role u = "student" ->
         reads_enforcement_on env validate_enforcement db ->
         Js.truthy (Middleware.ReqUser.deviceId u) = true ->
         (Js.truthy (Middleware.x_device_id req) = false ->
          Middleware.validateDevice env req db
          = (Middleware.next_error (App Errors.DeviceSessionInvalid), db))
         /\ (Js.truthy (Middleware.x_device_id req) = true ->
             Js.strict_eq (Middleware.ReqUser.deviceId u) (Middleware.x_device_id req)
             = false ->
             outcome env validate_revoke <> Rejects ->
             fst (Middleware.validateDevice env req db)
             = Middleware.next_error (App Errors.DeviceSessionInvalid)))
  /\ (forall env req db u,
         reaches_liveness_check env req db u ->
         (forall req' db',
             Middleware.authenticate env req db = ((req', Middleware.next), db') ->
             outcome env authenticate_valid_tokens = Succeeds
             /\ live_tokens (now env) (Users.id u) db <> [])
         /\ (outcome env authenticate_valid_tokens = Succeeds ->
             live_tokens (now env) (Users.id u) db = [] ->
             Middleware.authenticate env req db
             = ((req, Middleware.next_error (App Errors.SessionExpiredElsewhere)), db))
         /\ (outcome env authenticate_valid_tokens = ReturnsError ->
             Middleware.authenticate env req db
             = ((req, Middleware.next_error (App Errors.SessionExpiredElsewhere)), db))).
Proof.
  split; [|split; [|split]].
  - intros env req db Ho. rewrite validateDevice_cases.
    destruct (Middleware.user req) as [u|]; trivial.
    unfold enforcement_observed.
    destruct (outcome env validate_enforcement); try contradiction;
      now rewrite andb_false_r.
  - intros env req db e db1 H. unfold Middleware.validateDevice. now rewrite H.
  - intros env req db u Hu Hrole Hon Hbound. split.
    + intros Hreq. rewrite validateDevice_cases, Hu, Hrole, Hbound, Hreq.
      now rewrite (observed_on _ _ _ Hon).
    + intros Hreq Hneq Hrev. rewrite validateDevice_cases, Hu, Hrole, Hbound, Hreq, Hneq.
      rewrite (observed_on _ _ _ Hon). cbn.
      destruct (outcome env validate_revoke); try contradiction; reflexivity.
  - intros env req db u Hreach.
    rewrite (authenticate_at_liveness_check _ _ _ _ Hreach).
    split; [|split].
    + intros req' db'.
      destruct (outcome env authenticate_valid_tokens); try discriminate.
      destruct (live_tokens (now env) (Users.id u) db); [discriminate|].
      intros _. split; [reflexivity | discriminate].
    + intros -> ->. reflexivity.
    + intros ->. reflexivity.
Qed.

(** C3 as stated fails for the liveness check: the student holds a live
    refresh-token row and presents a valid access token; when the store
    answers the liveness query with an error the request is refused with
    401, where a normal answer lets it through. *)
Lemma liveness_check_refuses_on_store_error :
  let logged_in := run_login (Scenario.login_from 100 "a1" (Some Scenario.laptop))
                             Scenario.enforced in
  let tokens := issued (Scenario.env 100 "a1") "u-asha" "student"
                       (Some Scenario.laptop) in
  let req := Middleware.mkReq (Some (AuthService.accessToken tokens))
                              (Some Scenario.laptop) None in
  live_tokens 150 "u-asha" (snd logged_in) <> []
  /\ snd (fst (Middleware.authenticate (Scenario.env 150 "") req (snd logged_in)))
     = Middleware.next
  /\ Middleware.authenticate
       (Scenario.env_with authenticate_valid_tokens ReturnsError 150 "") req
       (snd logged_in)
     = ((req, Middleware.next_error (App Errors.SessionExpiredElsewhere)),
        snd logged_in).
Proof. repeat split. discriminate. Qed.

Lemma validator_failure_modes_witness :
  let logged_in := run_login (Scenario.login_from 100 "a1" (Some Scenario.laptop))
                             Scenario.enforced in
  let tokens := issued (Scenario.env 100 "a1") "u-asha" "student"
                       (Some Scenario.laptop) in
  let access := AuthService.accessToken tokens in
  Middleware.validateDevice (Scenario.env_with validate_enforcement Rejects 150 "")
    (request_with access (Some Scenario.phone) Scenario.asha) (snd logged_in)
  = (Middleware.next, snd logged_in)
  /\ Middleware.validateDevice (Scenario.env 150 "")
       (request_with access None Scenario.asha) (snd logged_in)
     = (Middleware.next_error (App Errors.DeviceSessionInvalid), snd logged_in)
  /\ Middleware.authenticate (Scenario.env 150 "")
       (Middleware.mkReq (Some access) (Some Scenario.laptop) None) Scenario.enforced
     = ((Middleware.mkReq (Some access) (Some Scenario.laptop) None,
         Middleware.next_error (App Errors.SessionExpiredElsewhere)),
        Scenario.enforced).
Proof.
  intros logged_in tokens access.
  destruct validator_failure_modes as (Hopen & _ & Hpolicy & Hlive).
  split; [|split].
  - apply Hopen. discriminate.
  - destruct (Hpolicy (Scenario.env 150 "")
                (request_with access None Scenario.asha) (snd logged_in)
                (Middleware.ReqUser.mk "u-asha" "active" "u-asha" "student"
                   (Some Scenario.laptop))) as [Habsent _].
    + reflexivity.
    + reflexivity.
    + split; reflexivity.
    + reflexivity.
    + apply Habsent. reflexivity.
  - destruct (Hlive (Scenario.env 150 "")
                (Middleware.mkReq (Some access) (Some Scenario.laptop) None)
                Scenario.enforced Scenario.asha) as (_ & Hnone & _).
    + exists access. repeat split.
    + apply Hnone; reflexivity.
Defined.

(** ** Resetting the devices of a student *)

Lemma by_id_after_status uid (l : list Users.row) :
  filter (fun u => String.eqb (Users.id u) uid)
    (map (fun r => if String.eqb (Users.id r) uid
                   then Users.set_status "active" r else r) l)
  = map (fun r => if String.eqb (Users.id r) uid
                  then Users.set_status "active" r else r)
        (filter (fun u => String.eqb (Users.id u) uid) l).
Proof.
  apply (filter_update_key (fun u => String.eqb (Users.id u) uid)). reflexivity.
Qed.

Lemma audit_log_run env adminId action description db :
  AuditService.log env adminId action description db
  = (Ok tt,
     match outcome env audit_insert with
     | Succeeds =>
         with_audit_logs
           (fun l => (l ++ [AuditLogs.mk adminId action description])%list) db
     | _ => db
     end).
Proof.
  unfold AuditService.log, try_catch, bind, await, insert, ret.
  destruct (outcome env audit_insert); reflexivity.
Qed.

(** A reset whose lookup and device deletion are carried out completes,
    whether or not the two later writes are answered with an error. *)
Lemma resetStudentDevices_run env uid adminId db u :
  by_id uid db = [u] ->
  Users.role u = "student" ->
  outcome env reset_users = Succeeds ->
  outcome env reset_devices = Succeeds ->
  outcome env reset_tokens <> Rejects ->
  outcome env reset_status <> Rejects ->
  DeviceService.resetStudentDevices env uid adminId db
  = (Ok DeviceService.reset_done, after_reset env uid adminId db).
Proof.
  intros Hu Hrole H1 H2 H3 H4.
  unfold DeviceService.resetStudentDevices.
  unfold bind at 1. unfold await at 1. rewrite H1.
  unfold single. fold (by_id uid). rewrite Hu. cbn [data ok]. rewrite Hrole.
  cbn [String.eqb Ascii.eqb Bool.eqb negb].
  unfold bind at 1. unfold await at 1. rewrite H2. unfold delete at 1.
  cbn [error ok]. unfold after_reset, bind, await, delete, update.
  destruct (outcome env reset_tokens), (outcome env reset_status);
    try contradiction; cbn beta iota zeta; rewrite audit_log_run; reflexivity.
Qed.

Lemma after_reset_devices env uid adminId db :
  devices_of uid (after_reset env uid adminId db) = [].
Proof.
  unfold after_reset, devices_of, AuthService.devices_of, select.
  destruct (outcome env reset_tokens), (outcome env reset_status),
    (outcome env audit_insert); cbn;
    apply (filter_negb_same (fun d => String.eqb (UserDevices.user_id d) uid)).
Qed.

Lemma after_reset_tokens env uid adminId db :
  outcome env reset_tokens = Succeeds ->
  tokens_of uid (after_reset env uid adminId db) = [].
Proof.
  intros H. unfold after_reset, tokens_of. rewrite H.
  destruct (outcome env reset_status), (outcome env audit_insert); cbn;
    apply (filter_negb_same (fun t => String.eqb (RefreshTokens.user_id t) uid)).
Qed.

Lemma after_reset_user env uid adminId db u :
  by_id uid db = [u] -> Users.role u = "student" ->
  exists u', by_id uid (after_reset env uid adminId db) = [u']
             /\ Users.role u' = "student".
Proof.
  intros Hu Hrole. unfold after_reset, by_id, select in *.
  destruct (outcome env reset_tokens), (outcome env reset_status),
    (outcome env audit_insert); cbn;
    rewrite ?by_id_after_status, ?Hu; cbn;
    try (exists u; now split);
    (destruct (String.eqb (Users.id u) uid);
     [exists (Users.set_status "active" u) | exists u]; now split).
Qed.

(** C8. Reset idempotence: [resetStudentDevices], called twice in a row on
    a student account with the store carrying out the lookup and the two
    deletions, completes both times with success and leaves the account
    with no device record and no refresh-token row after the first call
    and after the second. Moreover a call whose device deletion was
    carried out completes with success and leaves no device record even
    when the refresh-token deletion or the status update is answered with
    an error. *)
Theorem reset_twice_and_best_effort :
  forall (uid adminId : string) (db : Db) (u : Users.row),
    by_id uid db = [u] ->
    Users.role u = "student" ->
    (forall env1 env2,
        (forall s, outcome env1 s = Succeeds) ->
        (forall s, outcome env2 s = Succeeds) ->
        let first := DeviceService.resetStudentDevices env1 uid adminId db in
        let second := DeviceService.resetStudentDevices env2 uid adminId (snd first) in
        fst first = Ok DeviceService.reset_done
        /\ devices_of uid (snd first) = [] /\ tokens_of uid (snd first) = []
        /\ fst second = Ok DeviceService.reset_done
        /\ devices_of uid (snd second) = [] /\ tokens_of uid (snd second) = [])
    /\ (forall env,
           outcome env reset_users = Succeeds ->
           outcome env reset_devices = Succeeds ->
           outcome env reset_tokens <> Rejects ->
           outcome env reset_status <> Rejects ->
           let run := DeviceService.resetStudentDevices env uid adminId db in
           fst run = Ok DeviceService.reset_done /\ devices_of uid (snd run) = []).
Proof.
  intros uid adminId db u Hu Hrole. split.
  - intros env1 env2 C1 C2 first second.
    assert (E1 : first = (Ok DeviceService.reset_done, after_reset env1 uid adminId db)).
    { apply resetStudentDevices_run with (u := u); trivial;
        rewrite C1; discriminate. }
    destruct (after_reset_user env1 uid adminId db u Hu Hrole) as (u' & Hu' & Hrole').
    assert (E2 : second = (Ok DeviceService.reset_done,
                           after_reset env2 uid adminId (after_reset env1 uid adminId db))).
    { subst second. rewrite E1. cbn [snd].
      apply resetStudentDevices_run with (u := u'); trivial;
        rewrite C2; discriminate. }
    rewrite E2, E1. cbn [fst snd].
    repeat split; auto using after_reset_devices, after_reset_tokens.
  - intros env H1 H2 H3 H4 run.
    assert (E : run = (Ok DeviceService.reset_done, after_reset env uid adminId db))
      by (apply resetStudentDevices_run with (u := u); trivial).
    rewrite E. split; [reflexivity | apply after_reset_devices].
Qed.

Lemma reset_twice_and_best_effort_witness :
  let db := snd (run_login (Scenario.login_from 100 "a1" (Some Scenario.phone))
                           Scenario.switched_off) in
  let first := DeviceService.resetStudentDevices (Scenario.env 200 "") "u-asha" "u-root"
                 db in
  let second := DeviceService.resetStudentDevices (Scenario.env 300 "") "u-asha" "u-root"
                  (snd first) in
  let degraded := DeviceService.resetStudentDevices
                    (Scenario.env_with reset_tokens ReturnsError 200 "")
                    "u-asha" "u-root" db in
  (length (devices_of "u-asha" db) = 1%nat /\ length (tokens_of "u-asha" db) = 1%nat)
  /\ (fst first = Ok DeviceService.reset_done
      /\ devices_of "u-asha" (snd first) = [] /\ tokens_of "u-asha" (snd first) = []
      /\ fst second = Ok DeviceService.reset_done
      /\ devices_of "u-asha" (snd second) = [] /\ tokens_of "u-asha" (snd second) = [])
  /\ (fst degraded = Ok DeviceService.reset_done
      /\ devices_of "u-asha" (snd degraded) = []).
Proof.
  intros db first second degraded.
  destruct (reset_twice_and_best_effort "u-asha" "u-root" db Scenario.asha)
    as [Htwice Hbest].
  - reflexivity.
  - reflexivity.
  - split; [split; reflexivity|]. split.
    + apply (Htwice (Scenario.env 200 "") (Scenario.env 300 "")); reflexivity.
    + apply (Hbest (Scenario.env_with reset_tokens ReturnsError 200 ""));
        try reflexivity; discriminate.
Defined.

(** * The rest of the code: proofs *)

(** ** Revocation by [logout], [changePassword] and [forceLogoutStudent] *)

Lemma refresh_never_completes_without_row env tok db :
  filter (fun t => jwt_eqb (RefreshTokens.token t) tok
                   && Bool.eqb (RefreshTokens.revoked t) false)
         (refresh_tokens db) = [] ->
  completes (AuthService.refreshAccessToken env tok db) = false.
Proof.
  intros Hnone. unfold completes, AuthService.refreshAccessToken, try_catch.
  destruct (jwt_verify tok jwtRefreshSecret (now env)) as [p|e].
  - unfold bind, await, single, select. rewrite Hnone.
    destruct (outcome env refresh_token_record); reflexivity.
  - unfold throw. destruct e; reflexivity.
Qed.

(** X1. After [logout] was called with a refresh token and the store
    carried out the update, no later [refreshAccessToken] with that token
    completes, whatever the time and the state of the store call; the rows
    holding other tokens are left exactly as they were.  [logout] without
    a token changes nothing.  Both report success. *)
Theorem logout_ends_the_refresh_token :
  forall (ctx : Ctx) (tok : Jwt) (db : Db),
    ended ctx logout_revoke = Succeeds ->
    let run := Auth.logout ctx (Some tok) db in
    fst run = Ok true
    /\ (forall env, completes (AuthService.refreshAccessToken env tok (snd run)) = false)
    /\ filter (fun t => negb (jwt_eqb (RefreshTokens.token t) tok))
              (refresh_tokens (snd run))
       = filter (fun t => negb (jwt_eqb (RefreshTokens.token t) tok)) (refresh_tokens db)
    /\ Auth.logout ctx None db = (Ok true, db).
Proof.
  intros ctx tok db Ho run. subst run.
  unfold Auth.logout, bind, await, update, ret. rewrite Ho. cbn [fst snd].
  split; [reflexivity|]. split; [|split; [|reflexivity]].
  - intros env. apply refresh_never_completes_without_row. cbn.
    apply filter_none. intros r Hin. apply in_map_iff in Hin.
    destruct Hin as (r0 & <- & _).
    destruct (jwt_eqb (RefreshTokens.token r0) tok) eqn:E; cbn; now rewrite E.
  - cbn. induction (refresh_tokens db) as [|r l IH]; [reflexivity|].
    cbn. destruct (jwt_eqb (RefreshTokens.token r) tok) eqn:E; cbn; rewrite ?E; cbn;
      now rewrite IH.
Qed.

Lemma logout_ends_the_refresh_token_witness :
  let run := Auth.logout (Cases.ctx 200 "") (Some Cases.asha_refresh) Cases.school in
  completes (AuthService.refreshAccessToken (Scenario.env 150 "") Cases.asha_refresh
               Cases.school) = true
  /\ fst run = Ok true
  /\ (forall env,
         completes (AuthService.refreshAccessToken env Cases.asha_refresh (snd run))
         = false).
Proof.
  intros run.
  destruct (logout_ends_the_refresh_token (Cases.ctx 200 "") Cases.asha_refresh
              Cases.school) as (Hok & Hdead & _).
  - reflexivity.
  - split; [reflexivity|]. split; [exact Hok | exact Hdead].
Defined.



Lemma by_id_names uid db u : by_id uid db = [u] -> Users.id u = uid.
Proof.
  intros H. assert (Hin : In u (by_id uid db)) by (rewrite H; now left).
  apply filter_In in Hin. now apply String.eqb_eq.
Qed.





(** X3. [changePassword] fails without writing anything when the account
    is not found (404), when the current password does not match (401)
    and when the store answers the update of the hash with an error
    (500): in these cases the stored hash and all sessions stay as they
    were. *)
Theorem changePassword_failures_write_nothing :
  forall (ctx : Ctx) (uid cur new : string) (db : Db),
    ended ctx changePassword_user = Succeeds ->
    (by_id uid db = [] ->
     Auth.changePassword ctx uid cur new db = (Throw (App Errors.UserNotFound), db))
    /\ (forall u,
           by_id uid db = [u] ->
           bcrypt_compare (base ctx) cur (Users.password_hash u) = false ->
           Auth.changePassword ctx uid cur new db
           = (Throw (App MoreErrors.CurrentPasswordIncorrect), db))
    /\ (forall u,
           by_id uid db = [u] ->
           bcrypt_compare (base ctx) cur (Users.password_hash u) = true ->
           ended ctx changePassword_update = ReturnsError ->
           Auth.changePassword ctx uid cur new db
           = (Throw (App MoreErrors.ChangePasswordFailed), db)).
Proof.
  intros ctx uid cur new db H1.
  split; [|split]; [intros Hu | intros u Hu Hc | intros u Hu Hc H2];
    unfold Auth.changePassword; unfold bind at 1; unfold await at 1; rewrite H1;
    unfold single; fold (by_id uid); rewrite Hu; cbn [data ok].
  - reflexivity.
  - now rewrite Hc.
  - rewrite Hc. cbn [negb]. unfold bind, await. now rewrite H2.
Qed.

Lemma changePassword_failures_write_nothing_witness :
  Auth.changePassword (Cases.ctx 200 "") "u-nobody" "x" "y" Cases.school
  = (Throw (App Errors.UserNotFound), Cases.school)
  /\ Auth.changePassword (Cases.ctx 200 "") "u-asha" "guess" "y" Cases.school
     = (Throw (App MoreErrors.CurrentPasswordIncorrect), Cases.school).
Proof.
  destruct (changePassword_failures_write_nothing (Cases.ctx 200 "") "u-nobody" "x" "y"
              Cases.school eq_refl) as (Hmissing & _).
  destruct (changePassword_failures_write_nothing (Cases.ctx 200 "") "u-asha" "guess" "y"
              Cases.school eq_refl) as (_ & Hwrong & _).
  split.
  - apply Hmissing. reflexivity.
  - apply (Hwrong Scenario.asha); reflexivity.
Defined.

Lemma tokens_of_revoke_all uid db :
  map RefreshTokens.token (tokens_of uid (revoke_all uid db))
  = map RefreshTokens.token (tokens_of uid db).
Proof.
  unfold tokens_of, revoke_all; cbn.
  induction (refresh_tokens db) as [|r l IH]; [reflexivity|]. cbn.
  destruct (String.eqb (RefreshTokens.user_id r) uid) eqn:E; cbn; rewrite E; cbn;
    now rewrite IH.
Qed.

Lemma forceLogoutStudent_run ctx uid adminId db u :
  by_id uid db = [u] ->
  Users.role u = "student" ->
  ended ctx forceLogout_user = Succeeds ->
  ended ctx forceLogout_revoke = Succeeds ->
  Devices.forceLogoutStudent ctx uid adminId db
  = (Ok true,
     snd (AuditService.log (base ctx) adminId "FORCE_LOGOUT"
            ("Forced logout for student ID: " ++ uid) (revoke_all uid db))).
Proof.
  intros Hu Hr H1 H2. unfold Devices.forceLogoutStudent.
  unfold bind at 1. unfold await at 1. rewrite H1.
  unfold single. fold (by_id uid). rewrite Hu. cbn [data ok]. rewrite Hr.
  cbn [String.eqb Ascii.eqb Bool.eqb negb].
  unfold bind at 1. unfold await at 1. rewrite H2. unfold update at 1.
  cbn [error ok]. fold (revoke_all uid db).
  unfold bind. rewrite audit_log_run. reflexivity.
Qed.

Lemma audit_log_keeps env adminId action description db :
  let db' := snd (AuditService.log env adminId action description db) in
  users db' = users db /\ refresh_tokens db' = refresh_tokens db
  /\ user_devices db' = user_devices db /\ system_settings db' = system_settings db.
Proof.
  rewrite audit_log_run. cbn [snd].
  destruct (outcome env audit_insert); repeat split.
Qed.

(** X4. [forceLogoutStudent] on a student account, the store carrying out
    the lookup and the update, reports success and leaves the account
    with no live refresh-token row at any time, while keeping the rows
    themselves (they are revoked, not deleted) and leaving the users and
    the device records untouched; from then on [authenticate] refuses
    every request of the student that reaches its liveness check with
    SessionExpiredElsewhere, however valid the access token is. *)
Theorem forceLogoutStudent_ends_every_session :
  forall (ctx : Ctx) (uid adminId : string) (db : Db) (u : Users.row),
    by_id uid db = [u] ->
    Users.role u = "student" ->
    ended ctx forceLogout_user = Succeeds ->
    ended ctx forceLogout_revoke = Succeeds ->
    let run := Devices.forceLogoutStudent ctx uid adminId db in
    fst run = Ok true
    /\ (forall t, live_tokens t uid (snd run) = [])
    /\ map RefreshTokens.token (tokens_of uid (snd run))
       = map RefreshTokens.token (tokens_of uid db)
    /\ user_devices (snd run) = user_devices db
    /\ users (snd run) = users db
    /\ (forall env req,
           reaches_liveness_check env req (snd run) u ->
           outcome env authenticate_valid_tokens <> Rejects ->
           Middleware.authenticate env req (snd run)
           = ((req, Middleware.next_error (App Errors.SessionExpiredElsewhere)),
              snd run)).
Proof.
  intros ctx uid adminId db u Hu Hr H1 H2 run. subst run.
  rewrite (forceLogoutStudent_run ctx uid adminId db u Hu Hr H1 H2). cbn [fst snd].
  destruct (audit_log_keeps (base ctx) adminId "FORCE_LOGOUT"
              ("Forced logout for student ID: " ++ uid) (revoke_all uid db))
    as (Hus & Htk & Hdv & _).
  set (db' := snd (AuditService.log _ _ _ _ (revoke_all uid db))) in *.
  assert (Hlive : forall t, live_tokens t uid db' = []).
  { intros t. unfold live_tokens, tokens_of. rewrite Htk.
    apply (live_after_revoke_all t uid db). }
  split; [reflexivity|]. split; [exact Hlive|]. split; [|split; [|split]].
  - unfold tokens_of at 1. rewrite Htk. apply tokens_of_revoke_all.
  - now rewrite Hdv.
  - now rewrite Hus.
  - intros env req Hreach Hrej.
    rewrite (authenticate_at_liveness_check env req db' u Hreach).
    pose proof (by_id_names _ _ _ Hu) as Hid. rewrite Hid, Hlive.
    destruct (outcome env authenticate_valid_tokens); try contradiction; reflexivity.
Qed.

Lemma forceLogoutStudent_ends_every_session_witness :
  let run := Devices.forceLogoutStudent (Cases.ctx 200 "") "u-asha" "u-root"
               Cases.school in
  let req := Middleware.mkReq (Some Cases.asha_access) (Some Scenario.laptop) None in
  snd (fst (Middleware.authenticate (Scenario.env 150 "") req Cases.school))
  = Middleware.next
  /\ fst run = Ok true
  /\ length (tokens_of "u-asha" (snd run)) = 1%nat
  /\ Middleware.authenticate (Scenario.env 250 "") req (snd run)
     = ((req, Middleware.next_error (App Errors.SessionExpiredElsewhere)), snd run).
Proof.
  intros run req.
  destruct (forceLogoutStudent_ends_every_session (Cases.ctx 200 "") "u-asha" "u-root"
              Cases.school Scenario.asha) as (Hok & _ & _ & _ & _ & Hrefused);
    try reflexivity.
  split; [reflexivity|]. split; [exact Hok|]. split; [reflexivity|].
  apply Hrefused; [|discriminate].
  exists Cases.asha_access. repeat split.
Defined.

(** X5. The two per-account administrator operations act on student
    accounts only: on an account that is not found they fail with 404, on
    a teacher's or administrator's account with 403, and in both cases
    nothing is written: no device record deleted, no session touched. *)
Theorem admin_operations_refuse_other_accounts :
  forall (ctx : Ctx) (uid adminId : string) (db : Db),
    ended ctx forceLogout_user = Succeeds ->
    outcome (base ctx) reset_users = Succeeds ->
    (by_id uid db = [] ->
     Devices.forceLogoutStudent ctx uid adminId db
     = (Throw (App Errors.UserNotFound), db)
     /\ DeviceService.resetStudentDevices (base ctx) uid adminId db
        = (Throw (App Errors.UserNotFound), db))
    /\ (forall u,
           by_id uid db = [u] ->
           Users.role u <> "student" ->
           Devices.forceLogoutStudent ctx uid adminId db
           = (Throw (App Errors.StudentsOnly), db)
           /\ DeviceService.resetStudentDevices (base ctx) uid adminId db
              = (Throw (App Errors.StudentsOnly), db)).
Proof.
  intros ctx uid adminId db H1 H2.
  split; [intros Hu | intros u Hu Hr];
    (split;
     [ unfold Devices.forceLogoutStudent; unfold bind at 1; unfold await at 1;
       rewrite H1
     | unfold DeviceService.resetStudentDevices; unfold bind at 1; unfold await at 1;
       rewrite H2 ]);
    unfold single; fold (by_id uid); rewrite Hu; cbn [data ok]; try reflexivity;
    destruct (String.eqb_spec (Users.role u) "student"); try contradiction;
    reflexivity.
Qed.

Lemma admin_operations_refuse_other_accounts_witness :
  Devices.forceLogoutStudent (Cases.ctx 200 "") "u-tara" "u-root" Cases.school
  = (Throw (App Errors.StudentsOnly), Cases.school)
  /\ DeviceService.resetStudentDevices (Scenario.env 200 "") "u-tara" "u-root"
       Cases.school
     = (Throw (App Errors.StudentsOnly), Cases.school)
  /\ Devices.forceLogoutStudent (Cases.ctx 200 "") "u-nobody" "u-root" Cases.school
     = (Throw (App Errors.UserNotFound), Cases.school).
Proof.
  destruct (admin_operations_refuse_other_accounts (Cases.ctx 200 "") "u-tara" "u-root"
              Cases.school eq_refl eq_refl) as (_ & Hother).
  destruct (admin_operations_refuse_other_accounts (Cases.ctx 200 "") "u-nobody"
              "u-root" Cases.school eq_refl eq_refl) as (Hmissing & _).
  destruct (Hother Cases.teacher) as (Hf & Hr); [reflexivity | discriminate |].
  destruct Hmissing as (Hm & _); [reflexivity|].
  split; [exact Hf|]. split; [exact Hr | exact Hm].
Defined.

(** ** The two settings *)

Lemma rewrite_setting_key key v r :
  SystemSettings.setting_key (rewrite_setting key v r) = SystemSettings.setting_key r.
Proof. unfold rewrite_setting. now destruct (String.eqb _ key). Qed.

Lemma setting_after_rewrite key v k db :
  AuthService.setting k (with_system_settings (map (rewrite_setting key v)) db)
  = map (rewrite_setting key v) (AuthService.setting k db).
Proof.
  unfold AuthService.setting, select; cbn.
  induction (system_settings db) as [|r l IH]; [reflexivity|]. cbn.
  rewrite rewrite_setting_key.
  destruct (String.eqb (SystemSettings.setting_key r) k); cbn; now rewrite IH.
Qed.

Lemma setting_in_key k db r :
  In r (AuthService.setting k db) -> SystemSettings.setting_key r = k.
Proof.
  unfold AuthService.setting, select. intros H. apply filter_In in H.
  now apply String.eqb_eq.
Qed.

Lemma stored_after_rewrite_same key v db w :
  stored_setting key db = Some w ->
  stored_setting key (with_system_settings (map (rewrite_setting key v)) db) = Some v.
Proof.
  intros H. apply stored_setting_inv in H. destruct H as (s & Hs & _).
  unfold stored_setting. rewrite setting_after_rewrite, Hs. cbn.
  unfold rewrite_setting.
  rewrite (setting_in_key key db s) by (rewrite Hs; now left).
  now rewrite String.eqb_refl.
Qed.

Lemma stored_after_rewrite_other key v k db :
  k <> key ->
  stored_setting k (with_system_settings (map (rewrite_setting key v)) db)
  = stored_setting k db.
Proof.
  intros Hne. unfold stored_setting. rewrite setting_after_rewrite.
  assert (E : map (rewrite_setting key v) (AuthService.setting k db)
              = AuthService.setting k db).
  { rewrite <- (map_id (AuthService.setting k db)) at 2.
    apply map_ext_in. intros r Hin. unfold rewrite_setting.
    rewrite (setting_in_key k db r Hin).
    now destruct (String.eqb_spec k key). }
  now rewrite E.
Qed.

Lemma rewrite_absent key v db :
  AuthService.setting key db = [] ->
  map (rewrite_setting key v) (system_settings db) = system_settings db.
Proof.
  unfold AuthService.setting, select. intros H.
  rewrite <- (map_id (system_settings db)) at 2.
  apply map_ext_in. intros r Hin. unfold rewrite_setting.
  destruct (String.eqb (SystemSettings.setting_key r) key) eqn:E; trivial.
  assert (Hf : In r (filter (fun s => String.eqb (SystemSettings.setting_key s) key)
                            (system_settings db)))
    by (apply filter_In; now split).
  rewrite H in Hf. destruct Hf.
Qed.

(** [getGlobalDeviceLimit] never fails when the read answers. *)
Lemma getGlobalDeviceLimit_run ctx db :
  ended ctx getLimit_read <> Rejects ->
  Devices.getGlobalDeviceLimit ctx db
  = (Ok match ended ctx getLimit_read, stored_setting "max_devices_per_student" db with
        | Succeeds, Some v => Devices.parseInt_or_one v
        | _, _ => 1
        end, db).
Proof.
  intros Ho. unfold Devices.getGlobalDeviceLimit, bind, await, single, stored_setting.
  destruct (ended ctx getLimit_read); try contradiction; trivial.
  now destruct (AuthService.setting _ db) as [|s [|s' l]].
Qed.

Lemma setGlobalDeviceLimit_run ctx limit adminId db :
  limit = 1 \/ limit = 2 ->
  ended ctx setLimit_update = Succeeds ->
  Devices.setGlobalDeviceLimit ctx limit adminId db
  = (Ok limit,
     snd (AuditService.log (base ctx) adminId "DEVICE_LIMIT_CHANGED"
            ("Changed global device limit to " ++ Js.toString limit)
            (with_system_settings
               (map (rewrite_setting "max_devices_per_student" (Js.toString limit))) db))).
Proof.
  intros Hl Ho. unfold Devices.setGlobalDeviceLimit.
  assert (E : existsb (Z.eqb limit) [1; 2] = true)
    by (destruct Hl as [-> | ->]; reflexivity).
  rewrite E. cbn [negb]. unfold bind, await, update. rewrite Ho. cbn [error ok].
  rewrite !audit_log_run. reflexivity.
Qed.

Lemma stored_after_audit env adminId action description k db :
  stored_setting k (snd (AuditService.log env adminId action description db))
  = stored_setting k db.
Proof.
  rewrite audit_log_run. cbn [snd]. now destruct (outcome env audit_insert).
Qed.

(** X6. [setGlobalDeviceLimit] accepts the limits 1 and 2 only: any other
    number fails with 400 and writes nothing, not even an audit entry.
    It updates the row of the setting and never creates it: on a store
    without a [max_devices_per_student] row a valid call reports success
    and leaves the settings as they were, so that [getGlobalDeviceLimit]
    goes on answering the default 1. *)
Theorem setGlobalDeviceLimit_validates_and_never_inserts :
  forall (ctx : Ctx) (limit : Z) (adminId : string) (db : Db),
    (limit <> 1 -> limit <> 2 ->
     Devices.setGlobalDeviceLimit ctx limit adminId db
     = (Throw (App MoreErrors.InvalidDeviceLimit), db))
    /\ (limit = 1 \/ limit = 2 ->
        AuthService.setting "max_devices_per_student" db = [] ->
        ended ctx setLimit_update = Succeeds ->
        let run := Devices.setGlobalDeviceLimit ctx limit adminId db in
        fst run = Ok limit
        /\ system_settings (snd run) = system_settings db
        /\ (forall ctx',
               ended ctx' getLimit_read <> Rejects ->
               Devices.getGlobalDeviceLimit ctx' (snd run) = (Ok 1, snd run))).
Proof.
  intros ctx limit adminId db. split.
  - intros H1 H2. unfold Devices.setGlobalDeviceLimit. cbn [existsb].
    destruct (Z.eqb_spec limit 1); [contradiction|].
    destruct (Z.eqb_spec limit 2); [contradiction|]. reflexivity.
  - intros Hl Habsent Ho run. subst run.
    rewrite (setGlobalDeviceLimit_run ctx limit adminId db Hl Ho). cbn [fst snd].
    assert (Hsame : system_settings
                      (snd (AuditService.log (base ctx) adminId "DEVICE_LIMIT_CHANGED"
                              ("Changed global device limit to " ++ Js.toString limit)
                              (with_system_settings
                                 (map (rewrite_setting "max_devices_per_student"
                                         (Js.toString limit))) db)))
                    = system_settings db).
    { destruct (audit_log_keeps (base ctx) adminId "DEVICE_LIMIT_CHANGED"
                  ("Changed global device limit to " ++ Js.toString limit)
                  (with_system_settings
                     (map (rewrite_setting "max_devices_per_student"
                             (Js.toString limit))) db)) as (_ & _ & _ & ->).
      cbn. now apply rewrite_absent. }
    split; [reflexivity|]. split; [exact Hsame|].
    intros ctx' Hr. rewrite (getGlobalDeviceLimit_run ctx' _ Hr).
    unfold stored_setting, AuthService.setting, select. rewrite Hsame.
    unfold AuthService.setting, select in Habsent. rewrite Habsent.
    now destruct (ended ctx' getLimit_read).
Qed.

Lemma setGlobalDeviceLimit_validates_and_never_inserts_witness :
  Devices.setGlobalDeviceLimit (Cases.ctx 200 "") 3 "u-root" Cases.school
  = (Throw (App MoreErrors.InvalidDeviceLimit), Cases.school)
  /\ Devices.setGlobalDeviceLimit (Cases.ctx 200 "") 0 "u-root" Cases.school
     = (Throw (App MoreErrors.InvalidDeviceLimit), Cases.school)
  /\ let run := Devices.setGlobalDeviceLimit (Cases.ctx 200 "") 2 "u-root"
                  Scenario.fresh in
     fst run = Ok 2
     /\ system_settings (snd run) = []
     /\ Devices.getGlobalDeviceLimit (Cases.ctx 300 "") (snd run) = (Ok 1, snd run).
Proof.
  destruct (setGlobalDeviceLimit_validates_and_never_inserts (Cases.ctx 200 "") 3
              "u-root" Cases.school) as (H3 & _).
  destruct (setGlobalDeviceLimit_validates_and_never_inserts (Cases.ctx 200 "") 0
              "u-root" Cases.school) as (H0 & _).
  destruct (setGlobalDeviceLimit_validates_and_never_inserts (Cases.ctx 200 "") 2
              "u-root" Scenario.fresh) as (_ & H2).
  split; [apply H3; discriminate|]. split; [apply H0; discriminate|].
  destruct H2 as (Hok & Hsame & Hget); [now right | reflexivity | reflexivity |].
  split; [exact Hok|]. split; [exact Hsame|]. apply Hget. discriminate.
Defined.

(** X7. Set and get round trip of the device limit: when the setting is
    stored in one row, a [setGlobalDeviceLimit] with limit 1 or 2 that the
    store carries out makes [getGlobalDeviceLimit] answer that limit, and
    the text stored is read back as the same number by the [parseInt] of
    the login check; the enforcement flag is not touched. *)
Theorem device_limit_round_trip :
  forall (ctx : Ctx) (limit : Z) (adminId : string) (db : Db) (old : string),
    limit = 1 \/ limit = 2 ->
    stored_setting "max_devices_per_student" db = Some old ->
    ended ctx setLimit_update = Succeeds ->
    let run := Devices.setGlobalDeviceLimit ctx limit adminId db in
    fst run = Ok limit
    /\ (exists v, stored_setting "max_devices_per_student" (snd run) = Some v
                  /\ Js.parseInt v = Some limit)
    /\ (forall ctx',
           ended ctx' getLimit_read = Succeeds ->
           Devices.getGlobalDeviceLimit ctx' (snd run) = (Ok limit, snd run))
    /\ stored_setting "device_tracking_enabled" (snd run)
       = stored_setting "device_tracking_enabled" db.
Proof.
  intros ctx limit adminId db old Hl Hold Ho run. subst run.
  rewrite (setGlobalDeviceLimit_run ctx limit adminId db Hl Ho). cbn [fst snd].
  assert (Hst : stored_setting "max_devices_per_student"
                  (snd (AuditService.log (base ctx) adminId "DEVICE_LIMIT_CHANGED"
                          ("Changed global device limit to " ++ Js.toString limit)
                          (with_system_settings
                             (map (rewrite_setting "max_devices_per_student"
                                     (Js.toString limit))) db)))
                = Some (Js.toString limit)).
  { rewrite stored_after_audit. now apply stored_after_rewrite_same with (w := old). }
  assert (Hp : Js.parseInt (Js.toString limit) = Some limit)
    by (destruct Hl as [-> | ->]; reflexivity).
  split; [reflexivity|]. split; [|split].
  - exists (Js.toString limit). now split.
  - intros ctx' Hr. rewrite getGlobalDeviceLimit_run by (rewrite Hr; discriminate).
    rewrite Hr, Hst. unfold Devices.parseInt_or_one. rewrite Hp.
    destruct Hl as [-> | ->]; reflexivity.
  - rewrite stored_after_audit. apply stored_after_rewrite_other. discriminate.
Qed.

Lemma device_limit_round_trip_witness :
  let run := Devices.setGlobalDeviceLimit (Cases.ctx 200 "") 2 "u-root" Cases.school in
  Devices.getGlobalDeviceLimit (Cases.ctx 150 "") Cases.school = (Ok 1, Cases.school)
  /\ fst run = Ok 2
  /\ Devices.getGlobalDeviceLimit (Cases.ctx 300 "") (snd run) = (Ok 2, snd run)
  /\ stored_setting "device_tracking_enabled" (snd run) = Some "true".
Proof.
  intros run.
  destruct (device_limit_round_trip (Cases.ctx 200 "") 2 "u-root" Cases.school "1")
    as (Hok & _ & Hget & Hflag); [now right | reflexivity | reflexivity |].
  split; [reflexivity|]. split; [exact Hok|]. split; [now apply Hget|].
  exact Hflag.
Defined.

Lemma find_is_first {A} (p : A -> bool) (l : list A) :
  find p l = hd_error (filter p l).
Proof.
  induction l as [|a l IH]; [reflexivity|]. cbn. now destruct (p a).
Qed.

Lemma filter_within {A} (p q : A -> bool) (l : list A) :
  (forall x, p x = true -> q x = true) -> filter p (filter q l) = filter p l.
Proof.
  intros H. induction l as [|a l IH]; [reflexivity|]. cbn.
  destruct (q a) eqn:Q; cbn.
  - now rewrite IH.
  - destruct (p a) eqn:P; [|exact IH]. apply H in P. congruence.
Qed.

(** What [getDeviceSettings] finds under a key stored in one row. *)
Lemma settingsMap_of_stored key db v :
  In key ["max_devices_per_student"; "device_tracking_enabled"] ->
  stored_setting key db = Some v ->
  Devices.settingsMap
    (filter (fun s => existsb (String.eqb (SystemSettings.setting_key s))
                        ["max_devices_per_student"; "device_tracking_enabled"])
            (system_settings db)) key = Some v.
Proof.
  intros Hk Hv. apply stored_setting_inv in Hv. destruct Hv as (s & Hs & <-).
  unfold Devices.settingsMap. rewrite find_is_first, filter_rev, filter_within.
  - unfold AuthService.setting, select in Hs. rewrite Hs. reflexivity.
  - intros x Hx. apply String.eqb_eq in Hx. rewrite Hx.
    destruct Hk as [<- | [<- | []]]; reflexivity.
Qed.

Lemma audit_then {B} env adminId action description (k : unit -> M B) db :
  bind (AuditService.log env adminId action description) k db
  = k tt (snd (AuditService.log env adminId action description db)).
Proof.
  unfold bind. rewrite audit_log_run. reflexivity.
Qed.

Lemma stored_after_insert k key v db :
  stored_setting k
    (with_system_settings (fun l => (l ++ [SystemSettings.mk key v])%list) db)
  = match (AuthService.setting k db
           ++ (if String.eqb key k then [SystemSettings.mk key v] else []))%list with
    | [s] => Some (SystemSettings.setting_value s)
    | _ => None
    end.
Proof.
  unfold stored_setting, AuthService.setting, select. cbn.
  rewrite filter_app. cbn. now destruct (String.eqb key k).
Qed.

Lemma toggle_run enabled adminId ctx db :
  (length (AuthService.setting "device_tracking_enabled" db) <= 1)%nat ->
  ended ctx toggle_existing = Succeeds ->
  ended ctx toggle_update = Succeeds ->
  ended ctx toggle_insert = Succeeds ->
  Devices.toggleDeviceEnforcement ctx enabled adminId db
  = (Ok enabled,
     snd (AuditService.log (base ctx) adminId "DEVICE_ENFORCEMENT_TOGGLED"
            ("Device enforcement " ++ (if enabled then "enabled" else "disabled"))
            (after_toggle enabled db))).
Proof.
  intros Hlen H1 H2 H3.
  unfold Devices.toggleDeviceEnforcement, after_toggle.
  unfold bind at 1. unfold bind at 1. unfold await at 1. rewrite H1.
  unfold single at 1.
  destruct (AuthService.setting "device_tracking_enabled" db) as [|s [|s' l]] eqn:Es;
    [| |cbn in Hlen; lia]; cbn [data ok failed].
  - unfold bind at 1. unfold await at 1. rewrite H3. unfold insert at 1.
    cbn [error ok]. unfold ret at 1. rewrite audit_then. reflexivity.
  - unfold bind at 1. unfold await at 1. rewrite H2. unfold update at 1.
    cbn [error ok]. unfold ret at 1. rewrite audit_then. reflexivity.
Qed.

Lemma toggle_stored enabled adminId ctx db :
  (length (AuthService.setting "device_tracking_enabled" db) <= 1)%nat ->
  ended ctx toggle_existing = Succeeds ->
  ended ctx toggle_update = Succeeds ->
  ended ctx toggle_insert = Succeeds ->
  let run := Devices.toggleDeviceEnforcement ctx enabled adminId db in
  fst run = Ok enabled
  /\ stored_setting "device_tracking_enabled" (snd run)
     = Some (if enabled then "true" else "false")
  /\ stored_setting "max_devices_per_student" (snd run)
     = stored_setting "max_devices_per_student" db
  /\ users (snd run) = users db /\ refresh_tokens (snd run) = refresh_tokens db
  /\ user_devices (snd run) = user_devices db.
Proof.
  intros Hlen H1 H2 H3 run. subst run.
  rewrite (toggle_run enabled adminId ctx db Hlen H1 H2 H3). cbn [fst snd].
  destruct (audit_log_keeps (base ctx) adminId "DEVICE_ENFORCEMENT_TOGGLED"
              ("Device enforcement " ++ (if enabled then "enabled" else "disabled"))
              (after_toggle enabled db)) as (Hu & Ht & Hd & _).
  split; [reflexivity|]. rewrite !stored_after_audit.
  unfold after_toggle in *.
  destruct (AuthService.setting "device_tracking_enabled" db) as [|s [|s' l]] eqn:Es;
    [| |cbn in Hlen; lia].
  - rewrite !stored_after_insert, Es. cbn. rewrite app_nil_r.
    repeat split; assumption.
  - assert (Ew : stored_setting "device_tracking_enabled" db
                 = Some (SystemSettings.setting_value s))
      by (unfold stored_setting; now rewrite Es).
    split; [apply (stored_after_rewrite_same _ _ _ _ Ew)|].
    split; [apply stored_after_rewrite_other; discriminate|].
    repeat split; assumption.
Qed.

(** X8. [toggleDeviceEnforcement] writes the flag whether or not a row
    for it exists (insert or update): with at most one row on file and the
    store carrying out the calls, the value stored afterwards is ['true']
    or ['false'] as asked, the login check and the per-request check then
    observe enforcement exactly as set, [getDeviceSettings] reports it,
    and the device limit, the users, the sessions and the device records
    are left as they were. *)
Theorem toggleDeviceEnforcement_round_trip :
  forall (ctx : Ctx) (enabled : bool) (adminId : string) (db : Db),
    (length (AuthService.setting "device_tracking_enabled" db) <= 1)%nat ->
    ended ctx toggle_existing = Succeeds ->
    ended ctx toggle_update = Succeeds ->
    ended ctx toggle_insert = Succeeds ->
    let run := Devices.toggleDeviceEnforcement ctx enabled adminId db in
    fst run = Ok enabled
    /\ enforcement_observed Succeeds (snd run) = enabled
    /\ (forall ctx',
           ended ctx' getSettings_read = Succeeds ->
           exists st,
             Devices.getDeviceSettings ctx' (snd run) = (Ok st, snd run)
             /\ Devices.deviceTrackingEnabled st = enabled)
    /\ stored_setting "max_devices_per_student" (snd run)
       = stored_setting "max_devices_per_student" db
    /\ users (snd run) = users db /\ refresh_tokens (snd run) = refresh_tokens db
    /\ user_devices (snd run) = user_devices db.
Proof.
  intros ctx enabled adminId db Hlen H1 H2 H3 run.
  destruct (toggle_stored enabled adminId ctx db Hlen H1 H2 H3)
    as (Hok & Hst & Hmax & Hrest).
  fold run in Hok, Hst, Hmax, Hrest.
  split; [exact Hok|]. split; [|split; [|split; [exact Hmax | exact Hrest]]].
  - unfold enforcement_observed. rewrite Hst. now destruct enabled.
  - intros ctx' Hr. eexists. split.
    + unfold Devices.getDeviceSettings, bind, await, rows, select. rewrite Hr.
      cbn [error data ok]. unfold ret. reflexivity.
    + cbn [Devices.deviceTrackingEnabled].
      rewrite (settingsMap_of_stored "device_tracking_enabled" (snd run) _
                 (or_intror (or_introl eq_refl)) Hst).
      now destruct enabled.
Qed.

Lemma toggleDeviceEnforcement_round_trip_witness :
  let on := Devices.toggleDeviceEnforcement (Cases.ctx 200 "") true "u-root"
              Scenario.fresh in
  let off := Devices.toggleDeviceEnforcement (Cases.ctx 300 "") false "u-root"
               (snd on) in
  enforcement_observed Succeeds Scenario.fresh = false
  /\ fst on = Ok true /\ enforcement_observed Succeeds (snd on) = true
  /\ fst off = Ok false /\ enforcement_observed Succeeds (snd off) = false.
Proof.
  intros on off.
  assert (L0 : (length (AuthService.setting "device_tracking_enabled" Scenario.fresh)
                <= 1)%nat) by (vm_compute; repeat constructor).
  assert (L1 : (length (AuthService.setting "device_tracking_enabled" (snd on))
                <= 1)%nat) by (vm_compute; repeat constructor).
  destruct (toggleDeviceEnforcement_round_trip (Cases.ctx 200 "") true "u-root"
              Scenario.fresh L0 eq_refl eq_refl eq_refl) as (Hon & Hobs & _).
  destruct (toggleDeviceEnforcement_round_trip (Cases.ctx 300 "") false "u-root"
              (snd on) L1 eq_refl eq_refl eq_refl) as (Hoff & Hobs' & _).
  split; [reflexivity|]. split; [exact Hon|]. split; [exact Hobs|].
  split; [exact Hoff | exact Hobs'].
Defined.

(** ** More of the login-time device check *)










(** ** What a reset makes possible *)

Lemma after_reset_settings env uid adminId db :
  system_settings (after_reset env uid adminId db) = system_settings db.
Proof.
  unfold after_reset.
  now destruct (outcome env reset_tokens), (outcome env reset_status),
    (outcome env audit_insert).
Qed.

Lemma stored_setting_same k db db' :
  system_settings db' = system_settings db ->
  stored_setting k db' = stored_setting k db.
Proof.
  intros H. unfold stored_setting, AuthService.setting, select. now rewrite H.
Qed.

Lemma checkDeviceLimit_nothing_on_file env uid dev db v :
  reads_enforcement_on env cdl_enforcement db ->
  outcome env cdl_max_devices = Succeeds ->
  stored_setting "max_devices_per_student" db = Some v ->
  outcome env cdl_devices = Succeeds ->
  devices_of uid db = [] ->
  AuthService.reached 0 (Js.parseInt v) = None ->
  AuthService.checkDeviceLimit env uid dev db = (Ok tt, db).
Proof.
  intros Hon Hmax Hv Hdev Hnone Hunder.
  apply stored_setting_inv in Hv. destruct Hv as (m & Em & <-).
  enter_enforced Hon.
  unfold bind, await, single, rows. rewrite Hmax, Em, Hdev. cbn [data ok].
  unfold devices_of in Hnone. rewrite Hnone. cbn [find existsb negb length].
  rewrite Hunder. reflexivity.
Qed.

(** X11. After [resetStudentDevices] the login-time device check admits
    the student from any fingerprint, also one whose record was blocked
    or that was refused for the limit before, as long as the stored limit
    is at least one: with nothing on file the check returns at once and
    writes nothing. *)
Theorem reset_readmits_every_fingerprint :
  forall (env0 env : Env) (uid adminId d v : string) (n : Z) (db : Db) (u : Users.row),
    by_id uid db = [u] ->
    Users.role u = "student" ->
    outcome env0 reset_users = Succeeds ->
    outcome env0 reset_devices = Succeeds ->
    outcome env0 reset_tokens <> Rejects ->
    outcome env0 reset_status <> Rejects ->
    reads_enforcement_on env cdl_enforcement db ->
    outcome env cdl_max_devices = Succeeds ->
    outcome env cdl_devices = Succeeds ->
    stored_setting "max_devices_per_student" db = Some v ->
    Js.parseInt v = Some n -> 1 <= n ->
    let db' := snd (DeviceService.resetStudentDevices env0 uid adminId db) in
    AuthService.checkDeviceLimit env uid d db' = (Ok tt, db').
Proof.
  intros env0 env uid adminId d v n db u Hu Hr H1 H2 H3 H4 Hon Hmax Hdev Hv Hn Hge db'.
  subst db'.
  rewrite (resetStudentDevices_run env0 uid adminId db u Hu Hr H1 H2 H3 H4). cbn [snd].
  pose proof (after_reset_settings env0 uid adminId db) as Hs.
  apply checkDeviceLimit_nothing_on_file with (v := v); trivial.
  - destruct Hon as [Ho Hst]. split; trivial.
    now rewrite (stored_setting_same _ _ _ Hs).
  - now rewrite (stored_setting_same _ _ _ Hs).
  - apply after_reset_devices.
  - rewrite Hn. unfold AuthService.reached.
    destruct (Z.leb_spec n (Z.of_nat 0)); [cbn in *; lia | reflexivity].
Qed.

Lemma reset_readmits_every_fingerprint_witness :
  AuthService.checkDeviceLimit (Scenario.env 100 "") "u-asha" Scenario.laptop
    Scenario.laptop_blocked
  = (Throw (App Errors.DeviceBlocked), Scenario.laptop_blocked)
  /\ let db' := snd (DeviceService.resetStudentDevices (Scenario.env 200 "") "u-asha"
                       "u-root" Scenario.laptop_blocked) in
     AuthService.checkDeviceLimit (Scenario.env 300 "") "u-asha" Scenario.laptop db'
     = (Ok tt, db').
Proof.
  split; [reflexivity|].
  assert (Hon : reads_enforcement_on (Scenario.env 300 "") cdl_enforcement
                  Scenario.laptop_blocked) by (split; reflexivity).
  assert (Hge : 1 <= 2) by lia.
  exact (reset_readmits_every_fingerprint (Scenario.env 200 "") (Scenario.env 300 "")
           "u-asha" "u-root" Scenario.laptop "2" 2 Scenario.laptop_blocked Scenario.asha
           eq_refl eq_refl eq_refl eq_refl ltac:(discriminate) ltac:(discriminate)
           Hon eq_refl eq_refl eq_refl eq_refl Hge).
Defined.

Lemma by_email_after_status uid email (l : list Users.row) :
  filter (fun u => String.eqb (Users.email u) email)
    (map (fun r => if String.eqb (Users.id r) uid
                   then Users.set_status "active" r else r) l)
  = map (fun r => if String.eqb (Users.id r) uid
                  then Users.set_status "active" r else r)
        (filter (fun u => String.eqb (Users.email u) email) l).
Proof.
  apply (filter_update_key (fun u => String.eqb (Users.email u) email)). reflexivity.
Qed.

(** X12. [login] refuses a blocked account with AccountBlocked, also with
    the right password and whatever the device, and writes nothing; and
    [resetStudentDevices], whose last write sets the status to
    ['active'], lifts that block: after a reset carried out by the store
    the credential checks of [login] accept the account again with its
    password. *)
Theorem reset_reactivates_a_blocked_student :
  forall (env0 env : Env) (uid adminId email password : string) (dev : option string)
         (db : Db) (u : Users.row),
    by_id uid db = [u] ->
    by_email email db = [u] ->
    Users.role u = "student" ->
    Users.status u = "blocked" ->
    outcome env0 reset_users = Succeeds ->
    outcome env0 reset_devices = Succeeds ->
    outcome env0 reset_tokens <> Rejects ->
    outcome env0 reset_status = Succeeds ->
    outcome env login_users = Succeeds ->
    bcrypt_compare env password (Users.password_hash u) = true ->
    AuthService.login env email password dev db
    = (Throw (App Errors.AccountBlocked), db)
    /\ credentials_accepted env email password
         (snd (DeviceService.resetStudentDevices env0 uid adminId db))
         (Users.set_status "active" u).
Proof.
  intros env0 env uid adminId email pw dev db u Hu He Hr Hs H1 H2 H3 H4 Hl Hp.
  split.
  - unfold AuthService.login. unfold bind at 1. unfold await at 1. rewrite Hl.
    unfold single. fold (by_email email). rewrite He. cbn [error data ok].
    rewrite Hs. reflexivity.
  - rewrite (resetStudentDevices_run env0 uid adminId db u Hu Hr H1 H2 H3);
      [|rewrite H4; discriminate].
    cbn [snd]. pose proof (by_id_names _ _ _ Hu) as Hid.
    repeat split; trivial.
    unfold after_reset, by_email, select in *. rewrite H4.
    destruct (outcome env0 reset_tokens), (outcome env0 audit_insert); cbn;
      rewrite by_email_after_status, He; cbn; now rewrite Hid, String.eqb_refl.
Qed.

Lemma reset_reactivates_a_blocked_student_witness :
  let blocked := Users.mk "u-asha" "asha@example.org" "bcrypt:s3cret" "student"
                   "blocked" in
  let db := mkDb [blocked] [] [] [] [] in
  AuthService.login (Scenario.env 100 "a1") "asha@example.org" "s3cret" None db
  = (Throw (App Errors.AccountBlocked), db)
  /\ completes
       (AuthService.login (Scenario.env 300 "a3") "asha@example.org" "s3cret" None
          (snd (DeviceService.resetStudentDevices (Scenario.env 200 "") "u-asha"
                  "u-root" db))) = true.
Proof.
  intros blocked db.
  destruct (reset_reactivates_a_blocked_student (Scenario.env 200 "")
              (Scenario.env 100 "a1") "u-asha" "u-root" "asha@example.org" "s3cret"
              None db blocked eq_refl eq_refl eq_refl eq_refl eq_refl eq_refl
              ltac:(discriminate) eq_refl eq_refl eq_refl) as (Hbefore & _).
  split; [exact Hbefore | reflexivity].
Defined.

(** ** Reset of all students *)









(** ** Sessions of students and of the other roles *)







(** ** Refreshing *)






(** X16. [refreshAccessToken] never writes: whatever the token, the time
    and the way the store call ends, the database is left as it was.
    When the store call does not reject, it either returns an access
    token, signed with the access secret, carrying the account and the
    role of the refresh token and no token identifier and valid for
    fifteen minutes, or it fails with an error of status 401. *)
Theorem refreshAccessToken_reads_only :
  forall (env : Env) (tok : Jwt) (db : Db),
    snd (AuthService.refreshAccessToken env tok db) = db
    /\ (outcome env refresh_token_record <> Rejects ->
        match fst (AuthService.refreshAccessToken env tok db) with
        | Ok access =>
            signed_with access = jwtSecret
            /\ userId (payload access) = userId (payload tok)
            /\ role (payload access) = role (payload tok)
            /\ tokenId (payload access) = None
            /\ exp access = now env + jwtExpiresIn
        | Throw (App e) => statusCode e = 401
        | Throw _ => False
        end).
Proof.
  intros env tok db.
  unfold AuthService.refreshAccessToken, try_catch, jwt_verify.
  destruct (negb (key_eqb (signed_with tok) jwtRefreshSecret));
    [split; [reflexivity | intros _; reflexivity]|].
  destruct (exp tok <=? now env); [split; [reflexivity | intros _; reflexivity]|].
  unfold bind, await, single, select.
  destruct (outcome env refresh_token_record).
  - destruct (filter _ (refresh_tokens db)) as [|r [|r' l]]; cbn;
      try (split; [reflexivity | intros _; reflexivity]).
    destruct (RefreshTokens.expires_at r <? now env); cbn;
      split; try reflexivity; intros _; try reflexivity.
    repeat split.
  - cbn. split; [reflexivity | intros _; reflexivity].
  - cbn. split; [reflexivity | intros H; now apply H].
Qed.

Lemma refreshAccessToken_reads_only_witness :
  snd (AuthService.refreshAccessToken (Scenario.env 200 "") Cases.asha_refresh Cases.school)
  = Cases.school
  /\ completes (AuthService.refreshAccessToken (Scenario.env 200 "") Cases.asha_refresh
                  Cases.school) = true
  /\ app_error (AuthService.refreshAccessToken (Scenario.env 200 "") Cases.asha_access
                  Cases.school) = Some Errors.InvalidRefreshToken.
Proof.
  destruct (refreshAccessToken_reads_only (Scenario.env 200 "") Cases.asha_refresh
              Cases.school) as (Hsame & Hres).
  assert (Ho : outcome (Scenario.env 200 "") refresh_token_record <> Rejects)
    by discriminate.
  specialize (Hres Ho).
  split; [exact Hsame|]. split; reflexivity.
Defined.

(** ** Refusals leave no trace *)

Section Clean.

Variable P : Exn -> Prop.

Lemma never_throws_ret {A} (a : A) : never_throws (ret a).
Proof. intros db e db' H. discriminate H. Qed.

Lemma never_throws_await {A} (o : Outcome) (q : Query A) :
  o <> Rejects -> never_throws (await o q).
Proof.
  intros Ho db e db'. unfold await.
  destruct o; [destruct (q db) | |contradiction]; discriminate.
Qed.

Lemma never_throws_bind {A B} (c : M A) (k : A -> M B) :
  never_throws c -> (forall a, never_throws (k a)) -> never_throws (bind c k).
Proof.
  intros Hc Hk db e db'. unfold bind.
  destruct (c db) as [[a|e0] db1] eqn:E; [apply Hk | now apply Hc in E].
Qed.

Lemma fails_cleanly_ret {A} (a : A) : fails_cleanly P (ret a).
Proof. intros db e db' H. discriminate H. Qed.

Lemma fails_cleanly_throw {A} (e : Exn) : P e -> fails_cleanly P (@throw A e).
Proof. intros He db e' db' H. injection H as <- <-. now split. Qed.

Lemma fails_cleanly_quiet {A} (c : M A) : never_throws c -> fails_cleanly P c.
Proof. intros Hc db e db' H. now apply Hc in H. Qed.

Lemma fails_cleanly_after_read {A B} (c : M A) (k : A -> M B) :
  reads_only c -> never_throws c -> (forall a, fails_cleanly P (k a)) ->
  fails_cleanly P (bind c k).
Proof.
  intros Hr Hc Hk db e db'. unfold bind.
  destruct (c db) as [[a|e0] db1] eqn:E; [|now apply Hc in E].
  apply Hr in E. subst db1. apply Hk.
Qed.

Lemma fails_cleanly_then_quiet {A B} (c : M A) (k : A -> M B) :
  fails_cleanly P c -> (forall a, never_throws (k a)) -> fails_cleanly P (bind c k).
Proof.
  intros Hc Hk db e db'. unfold bind.
  destruct (c db) as [[a|e0] db1] eqn:E.
  - intros H. now apply Hk in H.
  - intros H. injection H as <- <-. now apply Hc.
Qed.

End Clean.

Lemma reads_only_single {R0} (o : Outcome) (s : Db -> list R0) :
  reads_only (await o (single s)).
Proof. apply (frames_single (R := fun db db' => db' = db)). reflexivity. Qed.

Lemma reads_only_rows {R0} (o : Outcome) (s : Db -> list R0) :
  reads_only (await o (rows s)).
Proof. apply (frames_rows (R := fun db db' => db' = db)). reflexivity. Qed.

Lemma refusal_401_403 (ae : AppError) :
  statusCode ae = 401 \/ statusCode ae = 403 -> refusal (App ae).
Proof. intros H. now exists ae. Qed.

Ltac quiet_walk Hans :=
  repeat lazymatch goal with
    | |- never_throws (bind _ _) => apply never_throws_bind; [| intros ?]
    | |- never_throws (ret _) => apply never_throws_ret
    | |- never_throws (await _ _) => apply never_throws_await, Hans
    | |- never_throws (match ?x with _ => _ end) => destruct x
    end.

Lemma checkDeviceLimit_fails_cleanly env uid dev :
  answers env -> fails_cleanly refusal (AuthService.checkDeviceLimit env uid dev).
Proof.
  intros Hans. unfold AuthService.checkDeviceLimit.
  apply fails_cleanly_after_read;
    [apply reads_only_single | apply never_throws_await, Hans | intros es].
  destruct (negb (AuthService.enforcement_enabled es)); [apply fails_cleanly_ret|].
  apply fails_cleanly_after_read;
    [apply reads_only_single | apply never_throws_await, Hans | intros sd].
  cbv zeta.
  apply fails_cleanly_after_read;
    [apply reads_only_rows | apply never_throws_await, Hans | intros reply].
  destruct (data reply) as [devices|]; [|apply fails_cleanly_ret].
  destruct (find _ devices);
    [apply fails_cleanly_throw, refusal_401_403; now right|].
  match goal with
  | |- fails_cleanly _ (match ?x with _ => _ end) => destruct x
  end; [apply fails_cleanly_throw, refusal_401_403; now right|].
  apply fails_cleanly_quiet. quiet_walk Hans.
Qed.

Lemma generateTokens_never_throws env uid role dev :
  answers env -> never_throws (AuthService.generateTokens env uid role dev).
Proof.
  intros Hans. unfold AuthService.generateTokens. cbv zeta. quiet_walk Hans.
Qed.

Lemma login_fails_cleanly env email pw dev :
  answers env -> fails_cleanly refusal (AuthService.login env email pw dev).
Proof.
  intros Hans. unfold AuthService.login.
  apply fails_cleanly_after_read;
    [apply reads_only_single | apply never_throws_await, Hans | intros found].
  destruct (error found), (data found) as [user|];
    try (apply fails_cleanly_throw, refusal_401_403; now left).
  destruct (String.eqb (Users.status user) "blocked");
    [apply fails_cleanly_throw, refusal_401_403; now right|].
  destruct (negb _); [apply fails_cleanly_throw, refusal_401_403; now left|].
  apply fails_cleanly_then_quiet.
  - destruct dev as [d|]; [|apply fails_cleanly_ret].
    destruct (_ && _); [now apply checkDeviceLimit_fails_cleanly | apply fails_cleanly_ret].
  - intros _. apply never_throws_bind.
    + quiet_walk Hans.
    + intros _. apply never_throws_bind;
        [now apply generateTokens_never_throws | intros ?; apply never_throws_ret].
Qed.

(** X17. A login that is refused leaves no trace.  When no awaited call
    rejects, a [login] that does not complete has written nothing, not
    a counter and not a token row, and fails with an [AppError] of
    status 401 or 403; every write of [login] and of its device check
    comes after the last point at which they can refuse. *)
Theorem refused_login_writes_nothing :
  forall (env : Env) (email pw : string) (dev : option string) (db db' : Db) (e : Exn),
    answers env ->
    AuthService.login env email pw dev db = (Throw e, db') ->
    db' = db
    /\ exists ae, e = App ae /\ (statusCode ae = 401 \/ statusCode ae = 403).
Proof.
  intros env email pw dev db db' e Hans Hrun.
  exact (login_fails_cleanly env email pw dev Hans db e db' Hrun).
Qed.

Lemma refused_login_writes_nothing_witness :
  exists e db',
    AuthService.login (Scenario.env 100 "a2") "asha@example.org" "s3cret"
      (Some Scenario.phone) Cases.school = (Throw e, db')
    /\ db' = Cases.school
    /\ exists ae, e = App ae /\ (statusCode ae = 401 \/ statusCode ae = 403).
Proof.
  assert (Hans : answers (Scenario.env 100 "a2")) by (intros s; discriminate).
  destruct (AuthService.login (Scenario.env 100 "a2") "asha@example.org" "s3cret"
              (Some Scenario.phone) Cases.school) as [[res|e] db'] eqn:E;
    [vm_compute in E; discriminate E|].
  exists e, db'. split; [reflexivity|].
  exact (refused_login_writes_nothing (Scenario.env 100 "a2") "asha@example.org"
           "s3cret" (Some Scenario.phone) Cases.school db' e Hans E).
Defined.

(** ** Registration *)

Lemma register_run ctx ud db :
  by_email (Auth.email ud) db = [] ->
  ended ctx register_existing <> Rejects ->
  ended ctx register_insert = Succeeds ->
  outcome (base ctx) generateTokens_insert <> Rejects ->
  let u := Users.mk (generated_id ctx) (Auth.email ud)
             (bcrypt_hash ctx (Auth.password ud))
             (Auth.role_or_student (Auth.role ud)) "active" in
  Auth.register ctx ud db
  = (Ok (AuthService.mkLoginResult u
           (issued (base ctx) (Users.id u) (Users.role u) (Auth.deviceId ud))),
     after_issue (base ctx) (Users.id u) (Users.role u) (Auth.deviceId ud)
       (with_users (fun l => (l ++ [u])%list) db)).
Proof.
  intros Hnew H1 H2 H3 u. unfold Auth.register.
  unfold bind at 1. unfold await at 1. unfold single.
  fold (by_email (Auth.email ud)). rewrite Hnew.
  assert (Hrest :
    (created <-
       await (ended ctx register_insert)
             (insert_returning with_users
                (Users.mk (generated_id ctx) (Auth.email ud)
                   (bcrypt_hash ctx (Auth.password ud))
                   (Auth.role_or_student (Auth.role ud)) "active")) ;;
     match error created, data created with
     | None, Some user =>
         issued0 <-
           AuthService.generateTokens (base ctx) (Users.id user) (Users.role user)
             (Auth.deviceId ud) ;;
         ret (AuthService.mkLoginResult user issued0)
     | _, _ => throw (App MoreErrors.CreateUserFailed)
     end)%js db
    = (Ok (AuthService.mkLoginResult u
             (issued (base ctx) (Users.id u) (Users.role u) (Auth.deviceId ud))),
       after_issue (base ctx) (Users.id u) (Users.role u) (Auth.deviceId ud)
         (with_users (fun l => (l ++ [u])%list) db))).
  { unfold bind at 1. unfold await at 1. rewrite H2. unfold insert_returning.
    cbn [error data ok]. fold u.
    unfold bind. rewrite generateTokens_run. unfold after_issue, ret.
    destruct (outcome (base ctx) generateTokens_insert); [| |contradiction]; reflexivity. }
  destruct (ended ctx register_existing); [| |contradiction]; exact Hrest.
Qed.

Lemma by_email_after_issue env uid role dev email db :
  by_email email (after_issue env uid role dev db) = by_email email db.
Proof.
  unfold by_email, select. now destruct (after_issue_devices env uid role dev db) as (_ & _ & ->).
Qed.

(** X18. Register and log in.  [register] with an e-mail address that is
    not on file stores one row for it, with the role given (a student's
    when none is given), the status ['active'] and the hash of the
    password, and returns the tokens of the new account; it creates no
    device record, also when a fingerprint is given.  Afterwards the
    credential checks of [login] accept the address with exactly the
    passwords that compare equal to the stored hash, and a second
    [register] with the same address fails with 400 and writes
    nothing. *)
Theorem register_then_login :
  forall (ctx : Ctx) (ud : Auth.UserData) (db : Db),
    by_email (Auth.email ud) db = [] ->
    ended ctx register_existing <> Rejects ->
    ended ctx register_insert = Succeeds ->
    outcome (base ctx) generateTokens_insert <> Rejects ->
    let run := Auth.register ctx ud db in
    let u := Users.mk (generated_id ctx) (Auth.email ud)
               (bcrypt_hash ctx (Auth.password ud))
               (Auth.role_or_student (Auth.role ud)) "active" in
    fst run
    = Ok (AuthService.mkLoginResult u
            (issued (base ctx) (generated_id ctx) (Auth.role_or_student (Auth.role ud))
               (Auth.deviceId ud)))
    /\ by_email (Auth.email ud) (snd run) = [u]
    /\ user_devices (snd run) = user_devices db
    /\ (forall env pw,
           outcome env login_users = Succeeds ->
           (credentials_accepted env (Auth.email ud) pw (snd run) u
            <-> bcrypt_compare env pw (bcrypt_hash ctx (Auth.password ud)) = true))
    /\ (forall ctx' ud',
           Auth.email ud' = Auth.email ud ->
           ended ctx' register_existing = Succeeds ->
           Auth.register ctx' ud' (snd run)
           = (Throw (App MoreErrors.UserExists), snd run)).
Proof.
  intros ctx ud db Hnew H1 H2 H3 run u. subst run.
  rewrite (register_run ctx ud db Hnew H1 H2 H3). cbn [fst snd]. fold u.
  assert (He : by_email (Auth.email ud)
                 (after_issue (base ctx) (Users.id u) (Users.role u) (Auth.deviceId ud)
                    (with_users (fun l => (l ++ [u])%list) db)) = [u]).
  { rewrite by_email_after_issue. unfold by_email, select in *; cbn.
    rewrite filter_app, Hnew. cbn. now rewrite String.eqb_refl. }
  split; [reflexivity|]. split; [exact He|]. split; [|split].
  - now destruct (after_issue_devices (base ctx) (Users.id u) (Users.role u)
                    (Auth.deviceId ud) (with_users (fun l => (l ++ [u])%list) db))
      as (-> & _).
  - intros env pw Hl. unfold credentials_accepted. rewrite He. cbn. tauto.
  - intros ctx' ud' Hsame Hl. unfold Auth.register.
    unfold bind at 1. unfold await at 1. rewrite Hl. unfold single.
    fold (by_email (Auth.email ud')). rewrite Hsame, He. reflexivity.
Qed.

Lemma register_then_login_witness :
  let ud := Auth.mkUserData "noor@example.org" "pa55word" None (Some Scenario.phone) in
  let run := Auth.register (Cases.ctx 300 "n1") ud Cases.school in
  completes run = true
  /\ completes (AuthService.login (Scenario.env 400 "n2") "noor@example.org" "pa55word"
                  None (snd run)) = true
  /\ app_error (AuthService.login (Scenario.env 400 "n2") "noor@example.org" "password"
                  None (snd run)) = Some Errors.InvalidCredentials
  /\ Auth.register (Cases.ctx 500 "n3") ud (snd run)
     = (Throw (App MoreErrors.UserExists), snd run).
Proof.
  intros ud run.
  assert (H1 : ended (Cases.ctx 300 "n1") register_existing <> Rejects) by discriminate.
  assert (H3 : outcome (base (Cases.ctx 300 "n1")) generateTokens_insert <> Rejects)
    by discriminate.
  destruct (register_then_login (Cases.ctx 300 "n1") ud Cases.school eq_refl H1 eq_refl
              H3) as (_ & _ & _ & _ & Hagain).
  split; [reflexivity|]. split; [reflexivity|]. split; [reflexivity|].
  exact (Hagain (Cases.ctx 500 "n3") ud eq_refl eq_refl).
Defined.





(** ** Role checks after authentication *)

Lemma authenticate_next_inv env req db req' db' :
  Middleware.authenticate env req db = ((req', Middleware.next), db') ->
  exists tok u,
    Middleware.bearer req = Some tok
    /\ jwt_verify tok jwtSecret (now env) = inl (payload tok)
    /\ by_id (userId (payload tok)) db = [u]
    /\ db' = db
    /\ req' = Middleware.mkReq (Middleware.bearer req) (Middleware.x_device_id req)
                (Some (Middleware.ReqUser.mk (Users.id u) (Users.status u)
                         (userId (payload tok)) (role (payload tok))
                         (deviceId (payload tok)))).
Proof.
  unfold Middleware.authenticate.
  destruct (Middleware.authenticate_try env req db) as [[ru|e] db1] eqn:E;
    [|destruct e; discriminate].
  intros H. injection H as <- <-.
  unfold Middleware.authenticate_try in E.
  destruct (Middleware.bearer req) as [tok|] eqn:Hb; [|discriminate E].
  assert (Hv : forall p, jwt_verify tok jwtSecret (now env) = inl p -> p = payload tok).
  { unfold jwt_verify. intros p.
    destruct (negb _); [discriminate|]. destruct (_ <=? _); [discriminate|].
    intros H. now injection H as <-. }
  destruct (jwt_verify tok jwtSecret (now env)) as [decoded|e] eqn:Hver;
    [|discriminate E].
  pose proof (Hv decoded eq_refl) as ->.
  unfold bind at 1 in E. unfold await at 1 in E.
  destruct (outcome env authenticate_users); try discriminate E.
  unfold single in E. fold (by_id (userId (payload tok))) in E.
  destruct (by_id (userId (payload tok)) db) as [|u [|u' l]] eqn:Hu;
    try discriminate E.
  cbn [error data ok] in E.
  destruct (String.eqb (Users.status u) "blocked"); [discriminate E|].
  unfold bind at 1 in E.
  match type of E with
  | (let (_, _) := ?c db in _) = _ =>
      assert (Hc : forall r d, c db = (r, d) -> d = db)
  end.
  { destruct (String.eqb (Users.role u) "student").
    - intros r d. unfold bind. rewrite liveness_query.
      destruct (outcome env authenticate_valid_tokens); cbn [error data ok];
        try (intros H; now injection H as _ <-).
      destruct (firstn 1 _); intros H; now injection H as _ <-.
    - intros r d H. now injection H as _ <-. }
  match type of E with
  | (let (_, _) := ?c db in _) = _ => destruct (c db) as [[[]|e] d] eqn:Ec
  end; [|discriminate E].
  specialize (Hc _ _ eq_refl). subst d. injection E as <- <-.
  exists tok, u. repeat split; trivial.
Qed.

(** X20. The role checks that follow [authenticate] decide on the claims
    of the token.  A request [authenticate] lets through leaves the
    database as it was; for it [authorize] lets through exactly when the role signed into
    the bearer token is one of the roles asked for, and [isAdminOrSelf]
    exactly when that role is ['admin'] or the route parameter names the
    account of the token; the role stored in [users] is not looked
    at. *)
Theorem authorization_follows_the_token :
  forall (env : Env) (req req' : Middleware.Req) (db db' : Db) (roles : list string)
         (param : option string),
    Middleware.authenticate env req db = ((req', Middleware.next), db') ->
    exists tok,
      Middleware.bearer req = Some tok
      /\ db' = db
      /\ (Rbac.authorize roles req' = Middleware.next <-> In (role (payload tok)) roles)
      /\ (Rbac.isAdminOrSelf param req' = Middleware.next
          <-> role (payload tok) = "admin" \/ param = Some (userId (payload tok))).
Proof.
  intros env req req' db db' roles param Hrun.
  apply authenticate_next_inv in Hrun.
  destruct Hrun as (tok & u & Hb & _ & Hu & -> & ->).
  apply by_id_names in Hu.
  exists tok. split; [exact Hb|]. split; [reflexivity|]. split.
  - unfold Rbac.authorize; cbn.
    destruct (existsb (String.eqb (role (payload tok))) roles) eqn:E; cbn.
    + split; [intros _ | reflexivity].
      apply existsb_exists in E. destruct E as (x & Hx & E).
      apply String.eqb_eq in E. now subst.
    + split; [discriminate|]. intros Hin.
      assert (F : existsb (String.eqb (role (payload tok))) roles = true).
      { apply existsb_exists. exists (role (payload tok)).
        split; [exact Hin | apply String.eqb_refl]. }
      congruence.
  - unfold Rbac.isAdminOrSelf; cbn. rewrite Hu.
    destruct (String.eqb_spec (role (payload tok)) "admin") as [Ea|Ea]; cbn.
    + split; [now left | reflexivity].
    + destruct param as [p|]; cbn.
      * destruct (String.eqb_spec (userId (payload tok)) p) as [Ep|Ep].
        -- split; [intros _; right; now subst | reflexivity].
        -- split; [discriminate|]. intros [H|H]; [contradiction|].
           injection H as ->. contradiction.
      * split; [discriminate|]. intros [H|H]; [contradiction | discriminate H].
Qed.

Lemma authorization_follows_the_token_witness :
  exists req',
    Middleware.authenticate (Scenario.env 200 "")
      (Middleware.mkReq (Some Cases.tara_access) None None) Cases.school
    = ((req', Middleware.next), Cases.school)
    /\ Rbac.isTeacherOrAdmin req' = Middleware.next
    /\ Rbac.isAdmin req' <> Middleware.next
    /\ Rbac.isAdminOrSelf (Some "u-tara") req' = Middleware.next
    /\ Rbac.isAdminOrSelf (Some "u-asha") req' <> Middleware.next.
Proof.
  destruct (Middleware.authenticate (Scenario.env 200 "")
              (Middleware.mkReq (Some Cases.tara_access) None None) Cases.school)
    as [[req' n] db'] eqn:E.
  assert (En : n = Middleware.next) by (vm_compute in E; now injection E as _ <- _).
  assert (Ed : db' = Cases.school) by (vm_compute in E; now injection E as _ _ <-).
  subst n db'. exists req'. split; [reflexivity|].
  assert (Hroles : forall roles param,
            (Rbac.authorize roles req' = Middleware.next
             <-> In (role (payload Cases.tara_access)) roles)
            /\ (Rbac.isAdminOrSelf param req' = Middleware.next
                <-> role (payload Cases.tara_access) = "admin"
                    \/ param = Some (userId (payload Cases.tara_access)))).
  { intros roles param.
    destruct (authorization_follows_the_token (Scenario.env 200 "")
                (Middleware.mkReq (Some Cases.tara_access) None None) req' Cases.school
                Cases.school roles param E) as (tok & Hb & _ & Ha & Hs).
    cbn in Hb. injection Hb as <-. now split. }
  split; [|split; [|split]].
  - apply (proj1 (Hroles ["teacher"; "admin"] None)). left. reflexivity.
  - intros H. apply (proj1 (Hroles ["admin"] None)) in H.
    destruct H as [H|[]]. discriminate H.
  - apply (proj2 (Hroles [] (Some "u-tara"))). right. reflexivity.
  - intros H. apply (proj2 (Hroles [] (Some "u-asha"))) in H.
    destruct H as [H|H]; discriminate H.
Defined.

(** ** The limit check of the tracking middleware *)

(** X21. The limit check of the tracking middleware, for a request that
    carries a user, never writes and looks at neither the enforcement
    flag nor the stored limit: for a student
    it refuses a fingerprint that is not on file with 403 as soon as one
    device record of the account exists, also while enforcement is
    switched off, where the check made at login admits the same
    fingerprint.  A store call that fails lets the request through, as
    does every request of another role. *)
Theorem tracking_check_is_fixed_at_one_device :
  forall (ctx : Ctx) (d : string) (req : Middleware.Req) (db : Db)
         (u : Middleware.ReqUser.t),
    Middleware.user req = Some u ->
    snd (DeviceTracking.checkDeviceLimit ctx d req db) = db
    /\ (Middleware.ReqUser.role u = "student" ->
        ended ctx tracking_devices = Succeeds ->
        ~ In d (fingerprints (Middleware.ReqUser.id u) db) ->
        devices_of (Middleware.ReqUser.id u) db <> [] ->
        fst (DeviceTracking.checkDeviceLimit ctx d req db)
        = Middleware.next_error (App MoreErrors.OneDeviceOnly)
        /\ (forall env,
               outcome env cdl_enforcement <> Rejects ->
               stored_setting "device_tracking_enabled" db <> Some "true" ->
               AuthService.checkDeviceLimit env (Middleware.ReqUser.id u) d db
               = (Ok tt, db)))
    /\ (Middleware.ReqUser.role u <> "student" \/ ended ctx tracking_devices <> Succeeds ->
        fst (DeviceTracking.checkDeviceLimit ctx d req db) = Middleware.next).
Proof.
  intros ctx d req db u Hu.
  unfold DeviceTracking.checkDeviceLimit, DeviceTracking.checkDeviceLimit_try.
  rewrite Hu. unfold bind, await, rows, ret.
  split; [|split].
  - destruct (negb _); [reflexivity|].
    destruct (ended ctx tracking_devices); cbn; try reflexivity.
    now destruct (negb _ && _).
  - intros Hr Ho Hnot Hsome. split.
    + rewrite Hr, Ho. cbn [String.eqb Ascii.eqb Bool.eqb negb error data ok].
      unfold fingerprints, devices_of in Hnot, Hsome.
      rewrite (existsb_fingerprint d _ Hnot). cbn [negb andb].
      destruct (AuthService.devices_of (Middleware.ReqUser.id u) db) as [|r l];
        [contradiction|].
      destruct (Z.leb_spec config_maxDevicesPerStudent (Z.of_nat (length (r :: l))))
        as [Hle|Hgt]; [reflexivity|].
      unfold config_maxDevicesPerStudent in Hgt. cbn [length] in Hgt. lia.
    + intros env He Hoff. now apply checkDeviceLimit_off.
  - intros [Hr|Ho].
    + apply String.eqb_neq in Hr. rewrite Hr. reflexivity.
    + destruct (negb _); [reflexivity|].
      destruct (ended ctx tracking_devices); [contradiction| |]; reflexivity.
Qed.

Lemma tracking_check_is_fixed_at_one_device_witness :
  let req :=
    Middleware.mkReq None None
      (Some (Middleware.ReqUser.mk "u-asha" "active" "u-asha" "student" None)) in
  DeviceTracking.checkDeviceLimit (Cases.ctx 100 "") Scenario.phone req
    Scenario.switched_off
  = (Middleware.next_error (App MoreErrors.OneDeviceOnly), Scenario.switched_off)
  /\ AuthService.checkDeviceLimit (Scenario.env 100 "") "u-asha" Scenario.phone
       Scenario.switched_off
     = (Ok tt, Scenario.switched_off).
Proof.
  intros req.
  destruct (tracking_check_is_fixed_at_one_device (Cases.ctx 100 "") Scenario.phone req
              Scenario.switched_off
              (Middleware.ReqUser.mk "u-asha" "active" "u-asha" "student" None) eq_refl)
    as (Hsame & Hrefuse & _).
  assert (Hnot : ~ In Scenario.phone (fingerprints "u-asha" Scenario.switched_off)).
  { vm_compute. intros [E|[]]. discriminate E. }
  assert (Hsome : devices_of "u-asha" Scenario.switched_off <> [])
    by (vm_compute; discriminate).
  destruct (Hrefuse eq_refl eq_refl Hnot Hsome) as (Hfst & Hlogin).
  split.
  - destruct (DeviceTracking.checkDeviceLimit (Cases.ctx 100 "") Scenario.phone req
                Scenario.switched_off) as [n db'].
    cbn [fst snd] in Hsame, Hfst. now subst.
  - apply Hlogin; [discriminate | vm_compute; discriminate].
Defined.

(** ** Naming a device *)

Lemma prefix_app (t s : string) : String.prefix t s = true <-> exists b, s = t ++ b.
Proof.
  revert s. induction t as [|c t IH]; intros s.
  - split; [intros _; now exists s | now destruct s].
  - destruct s as [|c' s]; cbn.
    + split; [discriminate | intros (b & H); discriminate H].
    + destruct (Ascii.ascii_dec c c') as [<-|Hne].
      * rewrite IH. split; intros (b & H); exists b.
        -- now rewrite H.
        -- now injection H.
      * split; [discriminate|]. intros (b & H). injection H as H _. now symmetry in H.
Qed.

Lemma includes_unfold (s t : string) :
  DeviceTracking.includes s t
  = if String.prefix t s then true
    else match s with
         | String _ rest => DeviceTracking.includes rest t
         | EmptyString => false
         end.
Proof. now destruct s. Qed.

Lemma includes_spec (s t : string) :
  DeviceTracking.includes s t = true <-> exists a b, s = a ++ t ++ b.
Proof.
  split.
  - induction s as [|c s IH]; rewrite includes_unfold;
      destruct (String.prefix t _) eqn:E.
    + intros _. apply prefix_app in E. destruct E as (b & ->). now exists "", b.
    + discriminate.
    + intros _. apply prefix_app in E. destruct E as (b & ->). now exists "", b.
    + intros H. destruct (IH H) as (a & b & ->). now exists (String c a), b.
  - intros (a & b & ->). induction a as [|c a IH]; rewrite includes_unfold.
    + replace (String.prefix t ("" ++ t ++ b)) with true; [reflexivity|].
      symmetry. apply prefix_app. now exists b.
    + destruct (String.prefix t _); [reflexivity | exact IH].
Qed.

Lemma includes_false (s t : string) :
  ~ (exists a b, s = a ++ t ++ b) -> DeviceTracking.includes s t = false.
Proof.
  intros H. destruct (DeviceTracking.includes s t) eqn:E; [|reflexivity].
  apply includes_spec in E. contradiction.
Qed.

(** X22. [extractDeviceName] names a device by the first of the words
    Windows, Mac, Linux, iPhone, iPad and Android that occurs in the user
    agent, in this order.  So a user agent in which ['Mac'] occurs and
    ['Windows'] does not is named ['Mac'] whatever else it says, and the
    names ['iPhone'] and ['iPad'] are given only to user agents without
    ['Mac'], the name ['Android Device'] only to user agents without
    ['Linux']. *)
Theorem device_name_is_the_first_match :
  forall (ua : string),
    ((exists a b, ua = a ++ "Mac" ++ b) ->
     ~ (exists a b, ua = a ++ "Windows" ++ b) ->
     DeviceTracking.extractDeviceName ua = "Mac")
    /\ (DeviceTracking.extractDeviceName ua = "iPhone"
        \/ DeviceTracking.extractDeviceName ua = "iPad" ->
        ~ (exists a b, ua = a ++ "Mac" ++ b))
    /\ (DeviceTracking.extractDeviceName ua = "Android Device" ->
        ~ (exists a b, ua = a ++ "Linux" ++ b)).
Proof.
  intros ua. unfold DeviceTracking.extractDeviceName. split; [|split].
  - intros Hmac Hwin. apply includes_spec in Hmac. apply includes_false in Hwin.
    rewrite Hwin, Hmac.
    destruct (String.eqb_spec ua "") as [->|_]; [discriminate Hmac | reflexivity].
  - intros H Hmac. apply includes_spec in Hmac. rewrite Hmac in H.
    destruct (String.eqb ua ""), (DeviceTracking.includes ua "Windows");
      destruct H as [H|H]; discriminate H.
  - intros H Hlinux. apply includes_spec in Hlinux. rewrite Hlinux in H.
    destruct (String.eqb ua ""), (DeviceTracking.includes ua "Windows"),
      (DeviceTracking.includes ua "Mac"); discriminate H.
Qed.

Lemma device_name_is_the_first_match_witness :
  DeviceTracking.extractDeviceName
    "Mozilla/5.0 (iPhone; CPU iPhone OS 17_0 like Mac OS X) AppleWebKit/605.1.15"
  = "Mac".
Proof.
  destruct (device_name_is_the_first_match
              "Mozilla/5.0 (iPhone; CPU iPhone OS 17_0 like Mac OS X) AppleWebKit/605.1.15")
    as (Hmac & _).
  apply Hmac.
  - exists "Mozilla/5.0 (iPhone; CPU iPhone OS 17_0 like ", " OS X) AppleWebKit/605.1.15".
    reflexivity.
  - intros H. apply includes_spec in H. vm_compute in H. discriminate H.
Defined.

(** ** Reset of the devices of one account *)

Lemma devices_after_delete uid uid' (l : list UserDevices.row) :
  filter (fun d => String.eqb (UserDevices.user_id d) uid')
    (filter (fun d => negb (String.eqb (UserDevices.user_id d) uid)) l)
  = if String.eqb uid' uid then []
    else filter (fun d => String.eqb (UserDevices.user_id d) uid') l.
Proof.
  induction l as [|r l IH]; [now destruct (String.eqb uid' uid)|]. cbn.
  destruct (String.eqb_spec (UserDevices.user_id r) uid) as [E|E]; cbn.
  - rewrite IH. destruct (String.eqb_spec uid' uid) as [E'|E']; [reflexivity|].
    destruct (String.eqb_spec (UserDevices.user_id r) uid'); [congruence | reflexivity].
  - rewrite IH. destruct (String.eqb_spec (UserDevices.user_id r) uid') as [E'|E'].
    + destruct (String.eqb_spec uid' uid); [congruence | reflexivity].
    + reflexivity.
Qed.

(** X23. [resetDevice] of [AuthService] deletes the device records of the
    account it is given, of whatever role, and nothing else: the records
    of other accounts, the users, the settings and all refresh-token
    rows are left as they were, so that, unlike after
    [resetStudentDevices], the sessions of the account stay live.  With
    enforcement on and a stored limit of at least one, the device check
    of the next login then admits any fingerprint.  When the store
    answers the deletion with an error, the call fails with 500 and
    nothing is written. *)
Theorem resetDevice_deletes_records_only :
  forall (ctx : Ctx) (uid : string) (db : Db),
    (ended ctx resetDevice_delete = Succeeds ->
     let run := Auth.resetDevice ctx uid db in
     fst run = Ok true
     /\ devices_of uid (snd run) = []
     /\ (forall uid', uid' <> uid -> devices_of uid' (snd run) = devices_of uid' db)
     /\ refresh_tokens (snd run) = refresh_tokens db
     /\ users (snd run) = users db
     /\ system_settings (snd run) = system_settings db
     /\ (forall env d v n,
            reads_enforcement_on env cdl_enforcement db ->
            outcome env cdl_max_devices = Succeeds ->
            outcome env cdl_devices = Succeeds ->
            stored_setting "max_devices_per_student" db = Some v ->
            Js.parseInt v = Some n -> 1 <= n ->
            AuthService.checkDeviceLimit env uid d (snd run) = (Ok tt, snd run)))
    /\ (ended ctx resetDevice_delete = ReturnsError ->
        Auth.resetDevice ctx uid db = (Throw (App MoreErrors.ResetDeviceFailed), db)).
Proof.
  intros ctx uid db. unfold Auth.resetDevice, bind, await, delete. split.
  - intros ->. cbn [fst snd error ok].
    set (db' := with_user_devices
                  (filter (fun r => negb (String.eqb (UserDevices.user_id r) uid))) db).
    assert (Hnone : devices_of uid db' = []).
    { unfold devices_of, AuthService.devices_of, select, db'; cbn.
      now rewrite devices_after_delete, String.eqb_refl. }
    split; [reflexivity|]. split; [exact Hnone|]. split; [|repeat split].
    + intros uid' Hne. unfold devices_of, AuthService.devices_of, select, db'; cbn.
      rewrite devices_after_delete. now apply String.eqb_neq in Hne as ->.
    + intros env d v n Hon Hmax Hdev Hv Hn Hge.
      apply checkDeviceLimit_nothing_on_file with (v := v); trivial.
      rewrite Hn. unfold AuthService.reached.
      destruct (Z.leb_spec n (Z.of_nat 0)); [cbn in *; lia | reflexivity].
  - intros ->. reflexivity.
Qed.

Lemma resetDevice_deletes_records_only_witness :
  let run := Auth.resetDevice (Cases.ctx 200 "") "u-asha" Cases.school in
  fst run = Ok true
  /\ devices_of "u-asha" (snd run) = []
  /\ live_tokens 201 "u-asha" (snd run) <> []
  /\ AuthService.checkDeviceLimit (Scenario.env 300 "") "u-asha" Scenario.phone
       Cases.school
     = (Throw (App (Errors.DeviceLimitExceeded 1)), Cases.school)
  /\ AuthService.checkDeviceLimit (Scenario.env 300 "") "u-asha" Scenario.phone (snd run)
     = (Ok tt, snd run).
Proof.
  intros run.
  destruct (resetDevice_deletes_records_only (Cases.ctx 200 "") "u-asha" Cases.school)
    as (Hok & _).
  destruct (Hok eq_refl) as (Hres & Hnone & _ & _ & _ & _ & Hnext).
  assert (Hon : reads_enforcement_on (Scenario.env 300 "") cdl_enforcement Cases.school)
    by (split; reflexivity).
  assert (Hge : 1 <= 1) by lia.
  split; [exact Hres|]. split; [exact Hnone|].
  split; [vm_compute; discriminate|]. split; [reflexivity|].
  exact (Hnext (Scenario.env 300 "") Scenario.phone "1" 1 Hon eq_refl eq_refl eq_refl
           eq_refl Hge).
Defined.

(** ** A new fingerprint under the limit *)




(** ** The other roles *)



(** ** The two tokens, and what [authenticate] answers *)


Lemma reads_only_refl (db : Db) : (fun a b : Db => b = a) db db.
Proof. reflexivity. Qed.

Lemma reads_only_trans (a b c : Db) :
  (fun x y : Db => y = x) a b -> (fun x y : Db => y = x) b c ->
  (fun x y : Db => y = x) a c.
Proof. cbn. congruence. Qed.

Lemma authenticate_try_reads_only env req :
  reads_only (Middleware.authenticate_try env req).
Proof.
  unfold reads_only, Middleware.authenticate_try.
  frame_walk reads_only_refl reads_only_trans.
Qed.

Lemma authenticate_try_fails_cleanly env req :
  answers env ->
  fails_cleanly
    (fun e => e = JsonWebTokenError \/ e = TokenExpiredError \/ refusal e)
    (Middleware.authenticate_try env req).
Proof.
  intros Hans. unfold Middleware.authenticate_try.
  destruct (Middleware.bearer req) as [tok|];
    [|apply fails_cleanly_throw; right; right; apply refusal_401_403; now left].
  unfold jwt_verify.
  destruct (negb _); [apply fails_cleanly_throw; now left|].
  destruct (_ <=? _); [apply fails_cleanly_throw; right; now left|].
  apply fails_cleanly_after_read;
    [apply reads_only_single | apply never_throws_await, Hans | intros found].
  destruct (error found), (data found) as [u|];
    try (apply fails_cleanly_throw; right; right; apply refusal_401_403; now left).
  destruct (String.eqb (Users.status u) "blocked");
    [apply fails_cleanly_throw; right; right; apply refusal_401_403; now right|].
  apply fails_cleanly_then_quiet; [|intros _; apply never_throws_ret].
  destruct (String.eqb (Users.role u) "student"); [|apply fails_cleanly_ret].
  apply fails_cleanly_after_read;
    [apply reads_only_rows | apply never_throws_await, Hans | intros valid].
  destruct (error valid), (data valid) as [[|x l]|];
    try (apply fails_cleanly_throw; right; right; apply refusal_401_403; now left).
  apply fails_cleanly_ret.
Qed.

(** X27. [authenticate] only reads: whatever the request and however the
    store calls end, the database is left as it was.  When no awaited
    call rejects, a request it does not let through is handed on
    unchanged, with no user attached by it, together with an [AppError]
    of status 401 or 403; a request it lets through carries the user. *)
Theorem authenticate_reads_only :
  forall (env : Env) (req : Middleware.Req) (db : Db),
    snd (Middleware.authenticate env req db) = db
    /\ (answers env ->
        match Middleware.authenticate env req db with
        | ((req', Middleware.next), _) => Middleware.user req' <> None
        | ((req', Middleware.next_error e), _) =>
            req' = req
            /\ exists ae, e = App ae /\ (statusCode ae = 401 \/ statusCode ae = 403)
        end).
Proof.
  intros env req db.
  pose proof (authenticate_try_reads_only env req db) as Hread.
  unfold Middleware.authenticate.
  destruct (Middleware.authenticate_try env req db) as [[u|e] db1] eqn:E.
  - split; [exact (Hread _ _ eq_refl) | intros _; discriminate].
  - specialize (Hread _ _ eq_refl). split; [now destruct e|].
    intros Hans.
    destruct (authenticate_try_fails_cleanly env req Hans db e db1 E)
      as (_ & [-> | [-> | (ae & -> & Hst)]]).
    + split; [reflexivity|]. eexists. split; [reflexivity | now left].
    + split; [reflexivity|]. eexists. split; [reflexivity | now left].
    + split; [reflexivity|]. now exists ae.
Qed.

Lemma authenticate_reads_only_witness :
  let req := Middleware.mkReq (Some Cases.asha_access) (Some Scenario.laptop) None in
  snd (Middleware.authenticate (Scenario.env 1000 "") req Cases.school) = Cases.school
  /\ snd (fst (Middleware.authenticate (Scenario.env 1000 "") req Cases.school))
     = Middleware.next_error (App Errors.TokenExpired)
  /\ snd (fst (Middleware.authenticate (Scenario.env 200 "") req Cases.school))
     = Middleware.next.
Proof.
  intros req.
  destruct (authenticate_reads_only (Scenario.env 1000 "") req Cases.school)
    as (Hsame & _).
  split; [exact Hsame|]. split; reflexivity.
Defined.

(** ** The settings shown *)

Lemma settingsMap_is_stored key db :
  In key ["max_devices_per_student"; "device_tracking_enabled"] ->
  (length (AuthService.setting key db) <= 1)%nat ->
  Devices.settingsMap
    (filter (fun s => existsb (String.eqb (SystemSettings.setting_key s))
                        ["max_devices_per_student"; "device_tracking_enabled"])
            (system_settings db)) key
  = stored_setting key db.
Proof.
  intros Hk Hlen.
  unfold Devices.settingsMap. rewrite find_is_first, filter_rev, filter_within.
  - unfold stored_setting. unfold AuthService.setting, select in *.
    destruct (filter _ (system_settings db)) as [|s [|s' l]]; try reflexivity.
    cbn [length] in Hlen. lia.
  - intros x Hx. apply String.eqb_eq in Hx. rewrite Hx.
    destruct Hk as [<- | [<- | []]]; reflexivity.
Qed.

(** X28. The settings shown are the settings in force.  With at most one
    row stored for each of the two settings, [getDeviceSettings] reports
    as limit the number [getGlobalDeviceLimit] answers and as
    enforcement flag exactly what the checks at login and on each
    request observe; with no row stored it reports the limit 1 and
    enforcement off.  It only reads.  When the store answers its read
    with an error it fails with 500, where [getGlobalDeviceLimit] falls
    back to 1. *)
Theorem settings_shown_are_settings_in_force :
  forall (ctx : Ctx) (db : Db),
    (length (AuthService.setting "max_devices_per_student" db) <= 1)%nat ->
    (length (AuthService.setting "device_tracking_enabled" db) <= 1)%nat ->
    (ended ctx getSettings_read = Succeeds ->
     ended ctx getLimit_read = Succeeds ->
     exists st,
       Devices.getDeviceSettings ctx db = (Ok st, db)
       /\ Devices.getGlobalDeviceLimit ctx db = (Ok (Devices.maxDevicesPerStudent st), db)
       /\ Devices.deviceTrackingEnabled st = enforcement_observed Succeeds db
       /\ (system_settings db = [] -> st = Devices.mkDeviceSettings 1 false))
    /\ (ended ctx getSettings_read = ReturnsError ->
        ended ctx getLimit_read = ReturnsError ->
        Devices.getDeviceSettings ctx db = (Throw (App MoreErrors.FetchSettingsFailed), db)
        /\ Devices.getGlobalDeviceLimit ctx db = (Ok 1, db)).
Proof.
  intros ctx db Hmax Hflag. split.
  - intros Hs Hl.
    unfold Devices.getDeviceSettings, bind, await, rows, select. rewrite Hs.
    cbn [error data ok]. unfold ret.
    rewrite !settingsMap_is_stored; trivial; [|right; left; reflexivity|now left].
    eexists. split; [reflexivity|]. cbn [Devices.maxDevicesPerStudent
                                          Devices.deviceTrackingEnabled].
    rewrite getGlobalDeviceLimit_run by (rewrite Hl; discriminate). rewrite Hl.
    split; [now destruct (stored_setting "max_devices_per_student" db)|].
    split; [unfold enforcement_observed;
            now destruct (stored_setting "device_tracking_enabled" db)|].
    intros Hnone. unfold stored_setting, AuthService.setting, select.
    rewrite Hnone. reflexivity.
  - intros Hs Hl. split.
    + unfold Devices.getDeviceSettings, bind, await. rewrite Hs. reflexivity.
    + rewrite getGlobalDeviceLimit_run by (rewrite Hl; discriminate). now rewrite Hl.
Qed.

Lemma settings_shown_are_settings_in_force_witness :
  exists st,
    Devices.getDeviceSettings (Cases.ctx 100 "") Cases.school = (Ok st, Cases.school)
    /\ Devices.getGlobalDeviceLimit (Cases.ctx 100 "") Cases.school
       = (Ok (Devices.maxDevicesPerStudent st), Cases.school)
    /\ Devices.deviceTrackingEnabled st = true.
Proof.
  assert (H1 : (length (AuthService.setting "max_devices_per_student" Cases.school) <= 1)%nat)
    by (vm_compute; repeat constructor).
  assert (H2 : (length (AuthService.setting "device_tracking_enabled" Cases.school) <= 1)%nat)
    by (vm_compute; repeat constructor).
  destruct (settings_shown_are_settings_in_force (Cases.ctx 100 "") Cases.school H1 H2)
    as (Hok & _).
  destruct (Hok eq_refl eq_refl) as (st & Hrun & Hlimit & Hflag & _).
  exists st. split; [exact Hrun|]. split; [exact Hlimit|].
  rewrite Hflag. reflexivity.
Defined.

(** ** Revoked sessions *)


